(** * Employee management system: the record store and its two callers

    A shallow embedding of [app.py] (the HTTP-backed library path) and of
    [employee_management_system.py] (the interactive program), followed by
    the properties of the record store.

    The store is a JSON file holding a list of dictionaries.  The Python
    objects that travel through the code are the values [json.load] can
    return; they are embedded in [Py.value].  Numbers are Python integers:
    float arithmetic and [float.__repr__] are outside this development.
    Strings are sequences of code points below 256.

    Every method is a function from the disk to what it returns or raises
    and the disk it leaves.  The disk gives, for each path, what is there:
    nothing (where a file can be created, or where none can), a
    directory, or a file with its permissions and content. *)

From Stdlib Require Import ZArith List String Ascii Bool Lia.
From Stdlib Require Import DecimalString DecimalPos DecimalFacts.
Import ListNotations.
Local Open Scope list_scope.

(** ** The Python runtime as far as the program uses it *)
Module Py.

(** Objects produced by [json.load]: [None], [bool], [int], [str], [list]
    and [dict] (string keys, in insertion order). *)
Unset Elimination Schemes.
Inductive value : Type :=
| VNone
| VBool (b : bool)
| VInt (n : Z)
| VStr (s : string)
| VList (items : list value)
| VDict (entries : list (string * value)).
Set Elimination Schemes.

Definition value_ind (P : value -> Prop)
    (HNone : P VNone)
    (HBool : forall b, P (VBool b))
    (HInt : forall n, P (VInt n))
    (HStr : forall s, P (VStr s))
    (HList : forall items, Forall P items -> P (VList items))
    (HDict : forall entries, Forall (fun kv => P (snd kv)) entries -> P (VDict entries)) :
  forall v, P v :=
  fix go (v : value) : P v :=
    match v with
    | VNone => HNone
    | VBool b => HBool b
    | VInt n => HInt n
    | VStr s => HStr s
    | VList items =>
        HList items
          ((fix all (l : list value) : Forall P l :=
              match l with
              | [] => Forall_nil _
              | x :: l' => Forall_cons x (go x) (all l')
              end) items)
    | VDict entries =>
        HDict entries
          ((fix all (l : list (string * value)) : Forall (fun kv => P (snd kv)) l :=
              match l with
              | [] => Forall_nil _
              | kv :: l' => Forall_cons kv (go (snd kv)) (all l')
              end) entries)
    end.

(** Exceptions the program can meet.  None of them is a subclass of
    another one in this list; all are subclasses of [Exception]. *)
Inductive exn : Type :=
| FileNotFoundError
| PermissionError
| IsADirectoryError
| UnicodeDecodeError
| JSONDecodeError
| KeyError
| TypeError
| AttributeError.

Inductive result (A : Type) : Type :=
| Ok (a : A)
| Raise (e : exn).
Arguments Ok {A} a.
Arguments Raise {A} e.

Definition bind {A B : Type} (m : result A) (k : A -> result B) : result B :=
  match m with
  | Ok a => k a
  | Raise e => Raise e
  end.

Notation "x <- m ;; k" := (bind m (fun x => k))
  (at level 61, m at next level, right associativity).

(** *** Dictionaries *)

Fixpoint dict_get (k : string) (d : list (string * value)) : option value :=
  match d with
  | [] => None
  | (k', v) :: d' => if String.eqb k k' then Some v else dict_get k d'
  end.

Definition dict_keys (d : list (string * value)) : list string := map fst d.

Definition mem (k : string) (ks : list string) : bool := existsb (String.eqb k) ks.

(** *** Truth value of an object ([bool(x)]) *)
Definition truthy (v : value) : bool :=
  match v with
  | VNone => false
  | VBool b => b
  | VInt n => negb (Z.eqb n 0)
  | VStr s => negb (String.eqb s EmptyString)
  | VList items => match items with [] => false | _ => true end
  | VDict entries => match entries with [] => false | _ => true end
  end.

(** *** Equality ([a == b])

    [bool] is a subclass of [int], so [True == 1].  Lists are compared item
    by item; dictionaries as maps, whatever the order of their keys.  In an
    association list a later entry under a key already seen is dead: no
    Python dictionary has one, and the comparison skips it. *)
Section Compare.
Variable eq : value -> value -> bool.

Fixpoint items_eq (xs ys : list value) {struct xs} : bool :=
  match xs, ys with
  | [], [] => true
  | x :: xs', y :: ys' => eq x y && items_eq xs' ys'
  | _, _ => false
  end.

(** Every live entry of [d] has an equal value under its key in [e]. *)
Fixpoint entries_eq (e : list (string * value)) (seen : list string)
    (d : list (string * value)) {struct d} : bool :=
  match d with
  | [] => true
  | (k, x) :: d' =>
      (if mem k seen then true
       else match dict_get k e with
            | Some y => eq x y
            | None => false
            end)
      && entries_eq e (k :: seen) d'
  end.
End Compare.

Fixpoint py_eq (a b : value) {struct a} : bool :=
  match a, b with
  | VNone, VNone => true
  | VBool x, VBool y => Bool.eqb x y
  | VBool x, VInt n => Z.eqb (Z.b2z x) n
  | VInt m, VBool y => Z.eqb m (Z.b2z y)
  | VInt m, VInt n => Z.eqb m n
  | VStr s, VStr t => String.eqb s t
  | VList xs, VList ys => items_eq py_eq xs ys
  | VDict d, VDict e =>
      entries_eq py_eq e [] d
      && forallb (fun k => mem k (dict_keys d)) (dict_keys e)
  | _, _ => false
  end.

(** *** Subscription with a string ([obj[key]]) *)
Definition py_getitem (obj : value) (key : string) : result value :=
  match obj with
  | VDict d => match dict_get key d with
               | Some v => Ok v
               | None => Raise KeyError
               end
  | _ => Raise TypeError
  end.

(** Is [needle] a prefix of [s], a substring of [s]? *)
Fixpoint is_prefix (needle s : string) : bool :=
  match needle, s with
  | EmptyString, _ => true
  | String a n', String b s' => Ascii.eqb a b && is_prefix n' s'
  | String _ _, EmptyString => false
  end.

Fixpoint is_substring (needle s : string) : bool :=
  is_prefix needle s ||
  match s with
  | EmptyString => false
  | String _ s' => is_substring needle s'
  end.

(** *** Membership of a string ([key in obj]) *)
Definition py_contains (obj : value) (key : string) : result bool :=
  match obj with
  | VDict d => Ok (mem key (dict_keys d))
  | VList items => Ok (existsb (fun x => py_eq x (VStr key)) items)
  | VStr s => Ok (is_substring key s)
  | _ => Raise TypeError
  end.

Fixpoint chars (s : string) : list value :=
  match s with
  | EmptyString => []
  | String a s' => VStr (String a EmptyString) :: chars s'
  end.

(** *** Iteration ([for x in obj]) *)
Definition py_iter (obj : value) : result (list value) :=
  match obj with
  | VList items => Ok items
  | VDict d => Ok (map VStr (dict_keys d))
  | VStr s => Ok (chars s)
  | _ => Raise TypeError
  end.

(** *** [obj.append(x)]: only lists have the method *)
Definition py_append (obj x : value) : result value :=
  match obj with
  | VList items => Ok (VList (items ++ [x]))
  | _ => Raise AttributeError
  end.

(** *** [json.dump]: the text written for an object

    The encoder of the standard library with its defaults
    ([ensure_ascii=True]): inside a string, the quote, the backslash and
    every character outside [' '..'~'] are escaped. *)
Definition LF : ascii := "010"%char.
Definition dquote : ascii := "034"%char.
Definition backslash : ascii := "092"%char.

Definition str1 (a : ascii) : string := String a EmptyString.

Fixpoint spaces (n : nat) : string :=
  match n with
  | O => EmptyString
  | S n' => String " " (spaces n')
  end.

Definition hex_digit (n : nat) : ascii :=
  nth n ["0"; "1"; "2"; "3"; "4"; "5"; "6"; "7"; "8"; "9";
         "a"; "b"; "c"; "d"; "e"; "f"]%char "0"%char.

Definition escape_char (c : ascii) : string :=
  let n := nat_of_ascii c in
  if Nat.eqb n 34 then String backslash (str1 dquote)
  else if Nat.eqb n 92 then String backslash (str1 backslash)
  else if Nat.eqb n 10 then String backslash "n"
  else if Nat.eqb n 13 then String backslash "r"
  else if Nat.eqb n 9 then String backslash "t"
  else if Nat.eqb n 8 then String backslash "b"
  else if Nat.eqb n 12 then String backslash "f"
  else if Nat.ltb n 32 || Nat.ltb 126 n then
    String backslash
      (String "u" (String "0" (String "0"
         (String (hex_digit (n / 16)) (str1 (hex_digit (n mod 16)))))))
  else str1 c.

Fixpoint escape (s : string) : string :=
  match s with
  | EmptyString => EmptyString
  | String c s' => (escape_char c ++ escape s')%string
  end.

Definition encode_string (s : string) : string :=
  String dquote (escape s ++ str1 dquote)%string.

Definition encode_int (n : Z) : string := NilZero.string_of_int (Z.to_int n).

(** With [indent=None] the items follow each other after [", "]; with
    [indent=n] each item starts a line of its own, [n] spaces deeper than
    the bracket, and the separator is [","]. *)
Definition newline_indent (indent : option nat) (level : nat) : string :=
  match indent with
  | None => EmptyString
  | Some n => String LF (spaces (n * level))
  end.

Definition item_separator (indent : option nat) : string :=
  match indent with
  | None => ", "%string
  | Some _ => ","%string
  end.

Definition key_separator : string := ": "%string.

(** [sep.join(parts)] *)
Fixpoint join (sep : string) (parts : list string) : string :=
  match parts with
  | [] => EmptyString
  | [p] => p
  | p :: rest => (p ++ sep ++ join sep rest)%string
  end.

Fixpoint encode (indent : option nat) (level : nat) (v : value) {struct v} : string :=
  match v with
  | VNone => "null"
  | VBool true => "true"
  | VBool false => "false"
  | VInt n => encode_int n
  | VStr s => encode_string s
  | VList items =>
      match items with
      | [] => "[]"
      | _ =>
          "[" ++ newline_indent indent (S level)
          ++ join (item_separator indent ++ newline_indent indent (S level))
               (map (encode indent (S level)) items)
          ++ newline_indent indent level ++ "]"
      end
  | VDict entries =>
      match entries with
      | [] => "{}"
      | _ =>
          "{" ++ newline_indent indent (S level)
          ++ join (item_separator indent ++ newline_indent indent (S level))
               (map (fun kv => encode_string (fst kv) ++ key_separator
                               ++ encode indent (S level) (snd kv)) entries)
          ++ newline_indent indent level ++ "}"
      end
  end%string.

Definition json_dumps (indent : option nat) (data : value) : string :=
  encode indent 0 data.

(** *** A reader of JSON texts

    The grammar of RFC 8259 with integers for numbers: a text with a
    fraction or an exponent, or with a code point above 255 in a string,
    is outside the objects embedded here and is not read.  It serves to
    state that a text is JSON and denotes a given object.  Entries of an
    object are kept in the order of the text. *)
Definition is_ws (c : ascii) : bool :=
  Ascii.eqb c " " || Ascii.eqb c "009" || Ascii.eqb c "010" || Ascii.eqb c "013".

Fixpoint skip_ws (s : string) : string :=
  match s with
  | EmptyString => EmptyString
  | String c s' => if is_ws c then skip_ws s' else s
  end.

Definition is_digit (c : ascii) : bool :=
  let n := nat_of_ascii c in Nat.leb 48 n && Nat.leb n 57.

Definition hex_value (c : ascii) : option nat :=
  let n := nat_of_ascii c in
  if Nat.leb 48 n && Nat.leb n 57 then Some (n - 48)
  else if Nat.leb 97 n && Nat.leb n 102 then Some (n - 87)
  else if Nat.leb 65 n && Nat.leb n 70 then Some (n - 55)
  else None.

Definition hex4 (h1 h2 h3 h4 : ascii) : option nat :=
  match hex_value h1, hex_value h2, hex_value h3, hex_value h4 with
  | Some a, Some b, Some c, Some d => Some (((a * 16 + b) * 16 + c) * 16 + d)
  | _, _, _, _ => None
  end.

Definition unescape (e : ascii) : option ascii :=
  if Ascii.eqb e dquote then Some dquote
  else if Ascii.eqb e backslash then Some backslash
  else if Ascii.eqb e "/" then Some "/"%char
  else if Ascii.eqb e "b" then Some "008"%char
  else if Ascii.eqb e "f" then Some "012"%char
  else if Ascii.eqb e "n" then Some "010"%char
  else if Ascii.eqb e "r" then Some "013"%char
  else if Ascii.eqb e "t" then Some "009"%char
  else None.

(** The characters of a string after its opening quote, up to the closing
    one, and what follows it. *)
Fixpoint decode_string (s : string) : option (string * string) :=
  match s with
  | EmptyString => None
  | String c s' =>
      if Ascii.eqb c dquote then Some (EmptyString, s')
      else if Ascii.eqb c backslash then
        match s' with
        | EmptyString => None
        | String e s'' =>
            if Ascii.eqb e "u" then
              match s'' with
              | String h1 (String h2 (String h3 (String h4 s3))) =>
                  match hex4 h1 h2 h3 h4 with
                  | Some n =>
                      if Nat.ltb n 256 then
                        match decode_string s3 with
                        | Some (t, r) => Some (String (ascii_of_nat n) t, r)
                        | None => None
                        end
                      else None
                  | None => None
                  end
              | _ => None
              end
            else
              match unescape e with
              | Some a =>
                  match decode_string s'' with
                  | Some (t, r) => Some (String a t, r)
                  | None => None
                  end
              | None => None
              end
        end
      else if Nat.ltb (nat_of_ascii c) 32 then None
      else
        match decode_string s' with
        | Some (t, r) => Some (String c t, r)
        | None => None
        end
  end.

Fixpoint strip_prefix (p s : string) : option string :=
  match p, s with
  | EmptyString, _ => Some s
  | String a p', String b s' => if Ascii.eqb a b then strip_prefix p' s' else None
  | String _ _, EmptyString => None
  end.

Fixpoint span_digits (s : string) : string * string :=
  match s with
  | EmptyString => (EmptyString, EmptyString)
  | String c s' =>
      if is_digit c then let (ds, r) := span_digits s' in (String c ds, r)
      else (EmptyString, s)
  end.

(** Does a number end before [rest]: no fraction and no exponent there. *)
Definition ends_int (rest : string) : bool :=
  match rest with
  | EmptyString => true
  | String c _ => negb (Ascii.eqb c "." || Ascii.eqb c "e" || Ascii.eqb c "E")
  end.

Definition leading_zero (digits : string) : bool :=
  match digits with
  | String c (String _ _) => Ascii.eqb c "0"
  | _ => false
  end.

Definition parse_digits (s : string) : option (Z * string) :=
  let (ds, rest) := span_digits s in
  match ds with
  | EmptyString => None
  | _ =>
      if leading_zero ds || negb (ends_int rest) then None
      else match NilEmpty.uint_of_string ds with
           | Some u => Some (Z.of_uint u, rest)
           | None => None
           end
  end.

Definition parse_number (s : string) : option (Z * string) :=
  match s with
  | EmptyString => None
  | String c s' =>
      if Ascii.eqb c "-" then
        match parse_digits s' with
        | Some (n, rest) => Some (Z.opp n, rest)
        | None => None
        end
      else parse_digits s
  end.

Fixpoint parse_value (fuel : nat) (s : string) {struct fuel} : option (value * string) :=
  match fuel with
  | O => None
  | S fuel' =>
      match s with
      | EmptyString => None
      | String c s' =>
          if Ascii.eqb c dquote then
            match decode_string s' with
            | Some (t, r) => Some (VStr t, r)
            | None => None
            end
          else if Ascii.eqb c "[" then
            match skip_ws s' with
            | EmptyString => None
            | String c1 r1 =>
                if Ascii.eqb c1 "]" then Some (VList [], r1)
                else match parse_elements fuel' (String c1 r1) with
                     | Some (vs, r) => Some (VList vs, r)
                     | None => None
                     end
            end
          else if Ascii.eqb c "{" then
            match skip_ws s' with
            | EmptyString => None
            | String c1 r1 =>
                if Ascii.eqb c1 "}" then Some (VDict [], r1)
                else match parse_members fuel' (String c1 r1) with
                     | Some (kvs, r) => Some (VDict kvs, r)
                     | None => None
                     end
            end
          else
            match strip_prefix "null" s with
            | Some r => Some (VNone, r)
            | None =>
                match strip_prefix "true" s with
                | Some r => Some (VBool true, r)
                | None =>
                    match strip_prefix "false" s with
                    | Some r => Some (VBool false, r)
                    | None =>
                        match parse_number s with
                        | Some (n, r) => Some (VInt n, r)
                        | None => None
                        end
                    end
                end
            end
      end
  end
with parse_elements (fuel : nat) (s : string) {struct fuel} : option (list value * string) :=
  match fuel with
  | O => None
  | S fuel' =>
      match parse_value fuel' s with
      | None => None
      | Some (v, r) =>
          match skip_ws r with
          | EmptyString => None
          | String c r1 =>
              if Ascii.eqb c "," then
                match parse_elements fuel' (skip_ws r1) with
                | Some (vs, r2) => Some (v :: vs, r2)
                | None => None
                end
              else if Ascii.eqb c "]" then Some ([v], r1)
              else None
          end
      end
  end
with parse_members (fuel : nat) (s : string) {struct fuel}
    : option (list (string * value) * string) :=
  match fuel with
  | O => None
  | S fuel' =>
      match s with
      | EmptyString => None
      | String c s' =>
          if Ascii.eqb c dquote then
            match decode_string s' with
            | None => None
            | Some (k, r) =>
                match skip_ws r with
                | EmptyString => None
                | String c1 r1 =>
                    if Ascii.eqb c1 ":" then
                      match parse_value fuel' (skip_ws r1) with
                      | None => None
                      | Some (v, r2) =>
                          match skip_ws r2 with
                          | EmptyString => None
                          | String c2 r3 =>
                              if Ascii.eqb c2 "," then
                                match parse_members fuel' (skip_ws r3) with
                                | Some (kvs, r4) => Some ((k, v) :: kvs, r4)
                                | None => None
                                end
                              else if Ascii.eqb c2 "}" then Some ([(k, v)], r3)
                              else None
                          end
                      end
                    else None
                end
            end
          else None
      end
  end.

(** The object a text denotes, when it is JSON: one value between
    optional white space. *)
Definition json_loads (s : string) : option value :=
  match parse_value (String.length s) (skip_ws s) with
  | Some (v, r) =>
      match skip_ws r with
      | EmptyString => Some v
      | String _ _ => None
      end
  | None => None
  end.

(** *** The file system at the paths the program touches

    What a file holds is known up to what [json.load] makes of it: the
    text [json.dump] writes for [data] with a given [indent], a text that
    is not JSON, or bytes that are not text in the file's encoding. *)
Inductive content : Type :=
| Json (indent : option nat) (data : value)
| Malformed
| Undecodable.

(** What is at a path.  [Absent]: nothing, and a file can be created
    there.  [Uncreatable denied]: nothing, and no file can be created: the
    path is empty or runs through a directory that does not exist
    ([denied = false], [open] raises [FileNotFoundError]), or the
    directory around it cannot be written ([denied = true], [open] for
    writing raises [PermissionError]). *)
Inductive node : Type :=
| Absent
| Directory
| Regular (readable writable : bool) (c : content)
| Uncreatable (denied : bool).

Definition disk : Type := string -> node.

Definition update (d : disk) (path : string) (n : node) : disk :=
  fun p => if String.eqb p path then n else d p.

(** [os.path.exists(path)] *)
Definition exists_ (d : disk) (path : string) : bool :=
  match d path with
  | Absent => false
  | Uncreatable _ => false
  | _ => true
  end.

(** Computations on the disk that may raise. *)
Definition M (A : Type) : Type := disk -> result A * disk.

Definition ret {A : Type} (a : A) : M A := fun d => (Ok a, d).

Definition raise {A : Type} (e : exn) : M A := fun d => (Raise e, d).

Definition bindM {A B : Type} (m : M A) (k : A -> M B) : M B :=
  fun d => match m d with
           | (Ok a, d') => k a d'
           | (Raise e, d') => (Raise e, d')
           end.

Definition lift {A : Type} (r : result A) : M A := fun d => (r, d).

Notation "'let*' x ':=' m 'in' k" := (bindM m (fun x => k))
  (at level 10, x name, m at level 100, k at level 200).

(** [try: body except classes: handler]; [handler e] is [None] when [e]
    is none of the classes, and the exception goes on to the caller. *)
Definition try_except {A : Type} (body : M A) (handler : exn -> option (M A)) : M A :=
  fun d => match body d with
           | (Ok a, d') => (Ok a, d')
           | (Raise e, d') =>
               match handler e with
               | Some h => h d'
               | None => (Raise e, d')
               end
           end.

(** [with open(path, 'r') as file: json.load(file)] *)
Definition json_load (c : content) : result value :=
  match c with
  | Json _ data => Ok data
  | Malformed => Raise JSONDecodeError
  | Undecodable => Raise UnicodeDecodeError
  end.

Definition open_read (path : string) : M content :=
  fun d => match d path with
           | Absent => (Raise FileNotFoundError, d)
           | Directory => (Raise IsADirectoryError, d)
           | Regular false _ _ => (Raise PermissionError, d)
           | Regular true _ c => (Ok c, d)
           | Uncreatable _ => (Raise FileNotFoundError, d)
           end.

Definition load_file (path : string) : M value :=
  let* c := open_read path in lift (json_load c).

(** [with open(path, 'w') as file: json.dump(data, file, indent=indent)]:
    [open] creates or truncates the file, or raises and leaves the disk
    as it is: at a directory, at a file without write permission, and
    where no file can be created.  Once the file is open, [json.dump] is
    taken to write the whole text of [data]; a dump that breaks off
    after the file was truncated is not part of the model. *)
Definition dump_file (path : string) (indent : option nat) (data : value) : M unit :=
  fun d => match d path with
           | Absent => (Ok tt, update d path (Regular true true (Json indent data)))
           | Directory => (Raise IsADirectoryError, d)
           | Regular r true _ => (Ok tt, update d path (Regular r true (Json indent data)))
           | Regular _ false _ => (Raise PermissionError, d)
           | Uncreatable denied =>
               (Raise (if denied then PermissionError else FileNotFoundError), d)
           end.

(** The text in the file at [path], when it has one. *)
Definition file_text (d : disk) (path : string) : option string :=
  match d path with
  | Regular _ _ (Json indent data) => Some (json_dumps indent data)
  | _ => None
  end.

(** What a method hands back: a flag, or the tuple of a flag and a
    message. *)
Inductive retval : Type :=
| RBool (b : bool)
| RTuple (b : bool) (message : string).

End Py.

(** ** [app.py]: the library path behind the HTTP interface *)
Module App.
Import Py.

Definition DATA_FILE : string := "employees.json".

Module EmployeeManagementSystem.

Record t : Type := { data_file_path : string }.

Definition __init__ (data_file : string) : M t :=
  let self := {| data_file_path := data_file |} in
  fun d =>
    if negb (exists_ d (data_file_path self)) then
      (let* _ := dump_file (data_file_path self) None (VList []) in ret self) d
    else ret self d.

Definition _load_data (self : t) : M value :=
  try_except (load_file (data_file_path self))
    (fun e => match e with
              | FileNotFoundError | JSONDecodeError => Some (ret (VList []))
              | _ => None
              end).

Definition _save_data (self : t) (data : value) : M bool :=
  try_except
    (let* _ := dump_file (data_file_path self) (Some 4%nat) data in ret true)
    (fun _ => Some (ret false)).

(** The loop of [add_employee]: does an employee of the list carry the id
    of [employee_data]? *)
Fixpoint id_exists (all_employees : list value) (employee_data : value) : result bool :=
  match all_employees with
  | [] => Ok false
  | employee :: rest =>
      a <- py_getitem employee "id" ;;
      b <- py_getitem employee_data "id" ;;
      if py_eq a b then Ok true else id_exists rest employee_data
  end.

Definition add_employee (self : t) (employee_data : value) : M retval :=
  let* all_employees := _load_data self in
  let* employees := lift (py_iter all_employees) in
  let* found := lift (id_exists employees employee_data) in
  if found then ret (RTuple false "Employee ID already exists")
  else
    let* all_employees := lift (py_append all_employees employee_data) in
    let* saved := _save_data self all_employees in
    if saved then ret (RTuple true "Employee added successfully")
    else ret (RTuple false "Error saving employee").

Definition view_all_employees (self : t) : M value := _load_data self.

(** The loop of [search_employee]: the first employee whose id is
    [emp_id]; [None] stands for Python's [None]. *)
Fixpoint first_with_id (all_employees : list value) (emp_id : value) : result (option value) :=
  match all_employees with
  | [] => Ok None
  | employee :: rest =>
      a <- py_getitem employee "id" ;;
      if py_eq a emp_id then Ok (Some employee) else first_with_id rest emp_id
  end.

Definition search_employee (self : t) (emp_id : value) : M (option value) :=
  let* all_employees := _load_data self in
  let* employees := lift (py_iter all_employees) in
  lift (first_with_id employees emp_id).

End EmployeeManagementSystem.

(** [system = EmployeeManagementSystem(DATA_FILE)], run when the module is
    loaded; the routes below use the object it returns. *)
Definition system : EmployeeManagementSystem.t :=
  {| EmployeeManagementSystem.data_file_path := DATA_FILE |}.

Definition startup : M EmployeeManagementSystem.t :=
  EmployeeManagementSystem.__init__ DATA_FILE.

(** A response: the object given to [jsonify] and the status code.  An
    exception that leaves a route is left as it is. *)
Definition response : Type := (value * Z)%type.

Definition get_employees : M response :=
  let* employees := EmployeeManagementSystem.view_all_employees system in
  ret (employees, 200%Z).

Definition required_fields : list string := ["id"; "name"; "department"; "salary"]%string.

(** The validation loop of the POST route: the first required field that
    is not in [employee_data] or whose value is falsy. *)
Fixpoint first_missing (fields : list string) (employee_data : value) : result (option string) :=
  match fields with
  | [] => Ok None
  | field :: rest =>
      present <- py_contains employee_data field ;;
      if negb present then Ok (Some field)
      else
        v <- py_getitem employee_data field ;;
        if negb (truthy v) then Ok (Some field)
        else first_missing rest employee_data
  end.

(** [success, message = ...]: a tuple is required. *)
Definition unpack (r : retval) : result (bool * string) :=
  match r with
  | RTuple success message => Ok (success, message)
  | RBool _ => Raise TypeError
  end.

Definition add_employee (employee_data : value) : M response :=
  let* missing := lift (first_missing required_fields employee_data) in
  match missing with
  | Some field =>
      ret (VDict [("error", VStr ("Missing required field: " ++ field))]%string, 400%Z)
  | None =>
      let* r := EmployeeManagementSystem.add_employee system employee_data in
      let* sm := lift (unpack r) in
      let (success, message) := sm in
      if success then ret (VDict [("message", VStr message)]%string, 201%Z)
      else ret (VDict [("error", VStr message)]%string, 400%Z)
  end.

(** [@app.route('/api/employees/<emp_id>')]: the rule matches one segment
    of the path, so the [emp_id] it hands to [get_employee] is a string
    that is not empty and has no slash; a request with any other path
    does not reach the function. *)
Fixpoint has_slash (s : string) : bool :=
  match s with
  | EmptyString => false
  | String c s' => Ascii.eqb c "/"%char || has_slash s'
  end.

Definition routable (emp_id : string) : bool :=
  match emp_id with
  | EmptyString => false
  | String _ _ => negb (has_slash emp_id)
  end.

Definition get_employee (emp_id : string) : M response :=
  let* employee := EmployeeManagementSystem.search_employee system (VStr emp_id) in
  match employee with
  | Some e =>
      if truthy e then ret (e, 200%Z)
      else ret (VDict [("error", VStr "Employee not found")]%string, 404%Z)
  | None => ret (VDict [("error", VStr "Employee not found")]%string, 404%Z)
  end.

End App.

(** ** [employee_management_system.py]: the interactive program

    Its store class.  What it prints goes to the console, which is not
    part of the state here; the menu and the [Employee] class, which turns
    the salary typed in into a float, are not embedded. *)
Module Cli.
Import Py.

Module EmployeeManagementSystem.

Record t : Type := { data_file_path : string }.

Definition __init__ (data_file : string) : M t :=
  let self := {| data_file_path := data_file |} in
  fun d =>
    if negb (exists_ d (data_file_path self)) then
      (let* _ := dump_file (data_file_path self) None (VList []) in ret self) d
    else ret self d.

Definition _load_data (self : t) : M value :=
  try_except (load_file (data_file_path self))
    (fun e => match e with
              | FileNotFoundError | JSONDecodeError => Some (ret (VList []))
              | _ => None
              end).

(** The handler also prints the exception. *)
Definition _save_data (self : t) (data : value) : M bool :=
  try_except
    (let* _ := dump_file (data_file_path self) (Some 4%nat) data in ret true)
    (fun _ => Some (ret false)).

Fixpoint id_exists (all_employees : list value) (employee_data : value) : result bool :=
  match all_employees with
  | [] => Ok false
  | employee :: rest =>
      a <- py_getitem employee "id" ;;
      b <- py_getitem employee_data "id" ;;
      if py_eq a b then Ok true else id_exists rest employee_data
  end.

(** On a duplicate the message is printed and [False] returned; otherwise
    the flag of [_save_data] is returned as it is. *)
Definition add_employee (self : t) (employee_data : value) : M retval :=
  let* all_employees := _load_data self in
  let* employees := lift (py_iter all_employees) in
  let* found := lift (id_exists employees employee_data) in
  if found then ret (RBool false)
  else
    let* all_employees := lift (py_append all_employees employee_data) in
    let* saved := _save_data self all_employees in
    ret (RBool saved).

Definition view_all_employees (self : t) : M value := _load_data self.

Fixpoint first_with_id (all_employees : list value) (emp_id : value) : result (option value) :=
  match all_employees with
  | [] => Ok None
  | employee :: rest =>
      a <- py_getitem employee "id" ;;
      if py_eq a emp_id then Ok (Some employee) else first_with_id rest emp_id
  end.

Definition search_employee (self : t) (emp_id : value) : M (option value) :=
  let* all_employees := _load_data self in
  let* employees := lift (py_iter all_employees) in
  lift (first_with_id employees emp_id).

End EmployeeManagementSystem.

End Cli.

(** ** Vocabulary of the properties *)
Import Py.

Definition app_sys (path : string) : App.EmployeeManagementSystem.t :=
  {| App.EmployeeManagementSystem.data_file_path := path |}.

Definition cli_sys (path : string) : Cli.EmployeeManagementSystem.t :=
  {| Cli.EmployeeManagementSystem.data_file_path := path |}.

(** A record is a dictionary with an ["id"]. *)
Definition has_id (r : value) : bool :=
  match py_getitem r "id" with
  | Ok _ => true
  | Raise _ => false
  end.

(** [same_id e r]: both carry an id and the one of [e] [==] the one of
    [r], in the order in which the loops of the store compare them. *)
Definition same_id (e r : value) : bool :=
  match py_getitem e "id", py_getitem r "id" with
  | Ok a, Ok b => py_eq a b
  | _, _ => false
  end.

Definition id_occurs (l : list value) (r : value) : bool :=
  existsb (fun e => same_id e r) l.

(** At most one record per id: no record has the id of an earlier one. *)
Fixpoint unique_ids (l : list value) : bool :=
  match l with
  | [] => true
  | e :: l' => forallb (fun r => negb (same_id e r)) l' && unique_ids l'
  end.

(** The store behind [path] holds the records [l]: that is what the
    store's own listing returns. *)
Definition holds (d : disk) (path : string) (l : list value) : Prop :=
  fst (App.EmployeeManagementSystem.view_all_employees (app_sys path) d) = Ok (VList l).

(** The invariant on a disk: whenever the listing is a list, its ids are
    unique. *)
Definition store_invariant (d : disk) (path : string) : bool :=
  match fst (App.EmployeeManagementSystem.view_all_employees (app_sys path) d) with
  | Ok (VList l) => unique_ids l
  | _ => true
  end.

(** Can the file at [path] be written: it does not exist yet and can be
    created, or it is a writable regular file. *)
Definition writable (d : disk) (path : string) : bool :=
  match d path with
  | Absent => true
  | Directory => false
  | Regular _ w _ => w
  | Uncreatable _ => false
  end.

(** What [_load_data] makes of the node at the path of the store. *)
Definition load_outcome (n : node) : result value :=
  match n with
  | Absent => Ok (VList [])
  | Directory => Raise IsADirectoryError
  | Regular false _ _ => Raise PermissionError
  | Regular true _ (Json _ data) => Ok data
  | Regular true _ Malformed => Ok (VList [])
  | Regular true _ Undecodable => Raise UnicodeDecodeError
  | Uncreatable _ => Ok (VList [])
  end.

(** The node after a write of [c] went through. *)
Definition written (n : node) (c : content) : node :=
  match n with
  | Regular r _ _ => Regular r true c
  | _ => Regular true true c
  end.

(** The successive adds of [rs], left to right, from [d]: the disk reached
    when every one of them reports success, nothing otherwise. *)
Fixpoint app_add_all (path : string) (rs : list value) (d : disk) : option disk :=
  match rs with
  | [] => Some d
  | r :: rs' =>
      match App.EmployeeManagementSystem.add_employee (app_sys path) r d with
      | (Ok (RTuple true _), d') => app_add_all path rs' d'
      | _ => None
      end
  end.

Fixpoint cli_add_all (path : string) (rs : list value) (d : disk) : option disk :=
  match rs with
  | [] => Some d
  | r :: rs' =>
      match Cli.EmployeeManagementSystem.add_employee (cli_sys path) r d with
      | (Ok (RBool true), d') => cli_add_all path rs' d'
      | _ => None
      end
  end.

(** A required field of a request body is in order when it is there and
    its value is truthy. *)
Definition field_ok (body : list (string * value)) (field : string) : bool :=
  match dict_get field body with
  | Some v => truthy v
  | None => false
  end.

Definition valid_body (body : list (string * value)) : bool :=
  forallb (field_ok body) App.required_fields.

(** ** Vocabulary of the reading of texts *)

(** Does a token end before [rest]: no digit, fraction or exponent goes
    on there. *)
Definition ends_token (rest : string) : bool :=
  match rest with
  | EmptyString => true
  | String c _ => negb (is_digit c) && ends_int rest
  end.

(** Steps that pay for the reading of the text of an object. *)
Fixpoint cost (v : value) : nat :=
  match v with
  | VList items => S (list_sum (map (fun x => S (cost x)) items))
  | VDict entries => S (list_sum (map (fun kv => S (cost (snd kv))) entries))
  | _ => 1
  end.

(** The characters a value can start with. *)
Definition value_head (c : ascii) : bool :=
  is_digit c || Ascii.eqb c "-" || Ascii.eqb c dquote || Ascii.eqb c "["
  || Ascii.eqb c "{" || Ascii.eqb c "n" || Ascii.eqb c "t" || Ascii.eqb c "f".

(** The text of [v], at any depth and with enough steps, is read back as
    [v], whatever follows it. *)
Definition reads_back (indent : option nat) (v : value) : Prop :=
  forall level fuel rest,
    cost v <= fuel -> ends_token rest = true ->
    parse_value fuel (encode indent level v ++ rest) = Some (v, rest).

(** What follows the comma between two items. *)
Definition pad (indent : option nat) (level : nat) : string :=
  match indent with
  | None => " "%string
  | Some _ => newline_indent indent level
  end.

(** ** Sample data *)

Definition employees_json : string := App.DATA_FILE.

Definition alice_entries : list (string * value) :=
  [("id", VStr "E1"); ("name", VStr "A"); ("department", VStr "Eng");
   ("salary", VInt 50000)]%string.

Definition alice : value := VDict alice_entries.

Definition alice_again : value :=
  VDict [("id", VStr "E1"); ("name", VStr "Z"); ("department", VStr "Ops");
         ("salary", VInt 1)]%string.

Definition bob : value :=
  VDict [("id", VStr "E2"); ("name", VStr "B"); ("department", VStr "Ops");
         ("salary", VInt 42000)]%string.

Definition no_salary : list (string * value) :=
  [("id", VStr "E3"); ("name", VStr "C"); ("department", VStr "Eng")]%string.

Definition no_file : disk := fun _ => Absent.

Definition file_with (c : content) : disk := fun _ => Regular true true c.

Definition unreadable_file : disk :=
  fun _ => Regular false true (Json None (VList [])).

Definition read_only_file : disk :=
  fun _ => Regular true false (Json None (VList [])).

(** A disk on which no file can be created: every path runs through a
    directory that does not exist. *)
Definition nowhere : disk := fun _ => Uncreatable false.

(** ** Vocabulary of the further properties *)

(** [id_equals e x]: [e] carries an id and it [==] [x], as the loop of the
    search compares them. *)
Definition id_equals (e x : value) : bool :=
  match py_getitem e "id" with
  | Ok a => py_eq a x
  | Raise _ => false
  end.

Definition none_with_id (l : list value) (x : value) : bool :=
  forallb (fun e => negb (id_equals e x)) l.

(** The answer of the routes when no employee is found. *)
Definition not_found : App.response :=
  (VDict [("error", VStr "Employee not found")]%string, 404%Z).

(** Was the request answered 201? *)
Definition created (r : result App.response) : bool :=
  match r with
  | Ok (_, status) => Z.eqb status 201
  | Raise _ => false
  end.

(** A run of POST requests, one body after the other: the answers and the
    disk at the end. *)
Fixpoint post_all (bodies : list value) (d : disk) : list (result App.response) * disk :=
  match bodies with
  | [] => ([], d)
  | body :: rest =>
      let (r, d1) := App.add_employee body d in
      let (rs, d2) := post_all rest d1 in
      (r :: rs, d2)
  end.

(** The bodies of a run that were answered 201, in the order of the run. *)
Fixpoint accepted (bodies : list value) (answers : list (result App.response)) : list value :=
  match bodies, answers with
  | body :: bodies', r :: answers' =>
      if created r then body :: accepted bodies' answers'
      else accepted bodies' answers'
  | _, _ => []
  end.

(** A JSON object with the four required fields truthy. *)
Definition record_ok (v : value) : bool :=
  match v with
  | VDict b => valid_body b
  | _ => false
  end.

(** An employee whose id is a number. *)
Definition numbered_entries : list (string * value) :=
  [("id", VInt 7); ("name", VStr "N"); ("department", VStr "Eng");
   ("salary", VInt 100)]%string.

(** Is the object a JSON object? *)
Definition is_object (v : value) : bool :=
  match v with
  | VDict _ => true
  | _ => false
  end.

(** Is the answer one of the two the POST route gives? *)
Definition answered (r : result App.response) : bool :=
  match r with
  | Ok (_, status) => Z.eqb status 201 || Z.eqb status 400
  | Raise _ => false
  end.

(** Is the answer the 400 the POST route gives when the save returned
    [False]? *)
Definition save_failed (r : result App.response) : bool :=
  match r with
  | Ok (VDict [(key, VStr message)], status) =>
      String.eqb key "error" && String.eqb message "Error saving employee"
      && Z.eqb status 400
  | _ => false
  end.

(** ** The two store classes agree

    The classes of the two files differ only in what [add_employee]
    returns. *)
Lemma cli_load_data path :
  Cli.EmployeeManagementSystem._load_data (cli_sys path)
  = App.EmployeeManagementSystem._load_data (app_sys path).
Proof. reflexivity. Qed.

Lemma cli_save_data path :
  Cli.EmployeeManagementSystem._save_data (cli_sys path)
  = App.EmployeeManagementSystem._save_data (app_sys path).
Proof. reflexivity. Qed.

Lemma cli_id_exists :
  Cli.EmployeeManagementSystem.id_exists = App.EmployeeManagementSystem.id_exists.
Proof. reflexivity. Qed.

Lemma cli_search_employee path :
  Cli.EmployeeManagementSystem.search_employee (cli_sys path)
  = App.EmployeeManagementSystem.search_employee (app_sys path).
Proof. reflexivity. Qed.

(** ** Equations of the store operations *)

Ltac run :=
  unfold App.EmployeeManagementSystem.add_employee,
    Cli.EmployeeManagementSystem.add_employee,
    App.EmployeeManagementSystem.search_employee,
    Cli.EmployeeManagementSystem.search_employee,
    App.EmployeeManagementSystem.view_all_employees,
    Cli.EmployeeManagementSystem.view_all_employees,
    App.EmployeeManagementSystem._save_data,
    Cli.EmployeeManagementSystem._save_data,
    App.EmployeeManagementSystem._load_data,
    Cli.EmployeeManagementSystem._load_data,
    App.EmployeeManagementSystem.__init__,
    Cli.EmployeeManagementSystem.__init__,
    try_except, load_file, open_read, dump_file, json_load, exists_,
    bindM, lift, ret, raise, writable, written, load_outcome;
  cbn [App.EmployeeManagementSystem.data_file_path
       Cli.EmployeeManagementSystem.data_file_path app_sys cli_sys fst snd].

Lemma load_data_eq path d :
  App.EmployeeManagementSystem._load_data (app_sys path) d = (load_outcome (d path), d).
Proof.
  run. destruct (d path) as [| |[|] w [i v| |]|denied]; reflexivity.
Qed.

Lemma save_data_eq path data d :
  App.EmployeeManagementSystem._save_data (app_sys path) data d =
  if writable d path
  then (Ok true, update d path (written (d path) (Json (Some 4%nat) data)))
  else (Ok false, d).
Proof.
  run. destruct (d path) as [| |r [|] c|[|]]; reflexivity.
Qed.

Lemma init_eq path d :
  App.EmployeeManagementSystem.__init__ path d =
  match d path with
  | Absent =>
      (Ok (app_sys path), update d path (Regular true true (Json None (VList []))))
  | Uncreatable denied =>
      (Raise (if denied then PermissionError else FileNotFoundError), d)
  | _ => (Ok (app_sys path), d)
  end.
Proof.
  run. destruct (d path) as [| |r w c|[|]]; reflexivity.
Qed.

Lemma cli_init_eq path d :
  Cli.EmployeeManagementSystem.__init__ path d =
  match d path with
  | Absent =>
      (Ok (cli_sys path), update d path (Regular true true (Json None (VList []))))
  | Uncreatable denied =>
      (Raise (if denied then PermissionError else FileNotFoundError), d)
  | _ => (Ok (cli_sys path), d)
  end.
Proof.
  run. destruct (d path) as [| |r w c|[|]]; reflexivity.
Qed.

Lemma app_add_eq path r d :
  App.EmployeeManagementSystem.add_employee (app_sys path) r d =
  match load_outcome (d path) with
  | Raise e => (Raise e, d)
  | Ok all =>
      match py_iter all with
      | Raise e => (Raise e, d)
      | Ok employees =>
          match App.EmployeeManagementSystem.id_exists employees r with
          | Raise e => (Raise e, d)
          | Ok true => (Ok (RTuple false "Employee ID already exists"), d)
          | Ok false =>
              match py_append all r with
              | Raise e => (Raise e, d)
              | Ok all' =>
                  if writable d path
                  then (Ok (RTuple true "Employee added successfully"),
                        update d path (written (d path) (Json (Some 4%nat) all')))
                  else (Ok (RTuple false "Error saving employee"), d)
              end
          end
      end
  end.
Proof.
  unfold App.EmployeeManagementSystem.add_employee, bindM at 1.
  rewrite load_data_eq.
  destruct (load_outcome (d path)) as [all|e]; [|reflexivity].
  unfold bindM at 1, lift at 1.
  destruct (py_iter all) as [employees|e]; [|reflexivity].
  unfold bindM at 1, lift at 1.
  destruct (App.EmployeeManagementSystem.id_exists employees r) as [[|]|e];
    [reflexivity| |reflexivity].
  unfold bindM at 1, lift at 1.
  destruct (py_append all r) as [all'|e]; [|reflexivity].
  unfold bindM at 1. rewrite save_data_eq.
  destruct (writable d path); reflexivity.
Qed.

Lemma cli_add_eq path r d :
  Cli.EmployeeManagementSystem.add_employee (cli_sys path) r d =
  match load_outcome (d path) with
  | Raise e => (Raise e, d)
  | Ok all =>
      match py_iter all with
      | Raise e => (Raise e, d)
      | Ok employees =>
          match App.EmployeeManagementSystem.id_exists employees r with
          | Raise e => (Raise e, d)
          | Ok true => (Ok (RBool false), d)
          | Ok false =>
              match py_append all r with
              | Raise e => (Raise e, d)
              | Ok all' =>
                  if writable d path
                  then (Ok (RBool true),
                        update d path (written (d path) (Json (Some 4%nat) all')))
                  else (Ok (RBool false), d)
              end
          end
      end
  end.
Proof.
  unfold Cli.EmployeeManagementSystem.add_employee, bindM at 1.
  rewrite cli_load_data, load_data_eq.
  destruct (load_outcome (d path)) as [all|e]; [|reflexivity].
  unfold bindM at 1, lift at 1.
  destruct (py_iter all) as [employees|e]; [|reflexivity].
  unfold bindM at 1, lift at 1. rewrite cli_id_exists.
  destruct (App.EmployeeManagementSystem.id_exists employees r) as [[|]|e];
    [reflexivity| |reflexivity].
  unfold bindM at 1, lift at 1.
  destruct (py_append all r) as [all'|e]; [|reflexivity].
  unfold bindM at 1. rewrite cli_save_data, save_data_eq.
  destruct (writable d path); reflexivity.
Qed.

Lemma search_eq path emp_id d :
  App.EmployeeManagementSystem.search_employee (app_sys path) emp_id d =
  (all <- load_outcome (d path) ;;
   employees <- py_iter all ;;
   App.EmployeeManagementSystem.first_with_id employees emp_id, d).
Proof.
  unfold App.EmployeeManagementSystem.search_employee, bindM at 1.
  rewrite load_data_eq.
  destruct (load_outcome (d path)) as [all|e]; [|reflexivity].
  unfold bindM, lift. cbn [bind].
  destruct (py_iter all) as [employees|e]; reflexivity.
Qed.

Lemma holds_iff d path l :
  holds d path l <-> load_outcome (d path) = Ok (VList l).
Proof.
  unfold holds, App.EmployeeManagementSystem.view_all_employees.
  rewrite load_data_eq. reflexivity.
Qed.

(** After a write the file is read back as what was written, as long as
    it could be read before. *)
Lemma load_outcome_written (d : disk) path all data :
  load_outcome (d path) = Ok all ->
  load_outcome (written (d path) (Json (Some 4%nat) data)) = Ok data.
Proof.
  unfold load_outcome, written.
  destruct (d path) as [| |[|] w c|denied]; try reflexivity; discriminate.
Qed.

Lemma update_same (d : disk) path n : update d path n path = n.
Proof. unfold update. now rewrite String.eqb_refl. Qed.

(** ** Equality of objects is reflexive *)

Lemma mem_app k ks1 ks2 : mem k (ks1 ++ ks2) = mem k ks1 || mem k ks2.
Proof. unfold mem. apply existsb_app. Qed.

Lemma dict_get_app_fresh k pre d :
  mem k (dict_keys pre) = false -> dict_get k (pre ++ d) = dict_get k d.
Proof.
  induction pre as [|[k' v] pre IH]; cbn; [reflexivity|].
  intros H. apply orb_false_elim in H as [H1 H2].
  rewrite H1. now apply IH.
Qed.

Lemma items_eq_refl eq l :
  Forall (fun x => eq x x = true) l -> items_eq eq l l = true.
Proof.
  induction 1 as [|x l Hx _ IH]; cbn; [reflexivity|].
  now rewrite Hx, IH.
Qed.

Lemma entries_eq_refl eq d :
  Forall (fun kv => eq (snd kv) (snd kv) = true) d ->
  forall pre seen,
    (forall k, mem k seen = mem k (dict_keys pre)) ->
    entries_eq eq (pre ++ d) seen d = true.
Proof.
  induction 1 as [|[k x] d Hx _ IH]; intros pre seen Hseen; cbn; [reflexivity|].
  apply andb_true_intro; split.
  - destruct (mem k seen) eqn:Hk; [reflexivity|].
    rewrite dict_get_app_fresh by (now rewrite <- Hseen).
    cbn. now rewrite String.eqb_refl.
  - replace (pre ++ (k, x) :: d) with ((pre ++ [(k, x)]) ++ d)
      by (now rewrite <- List.app_assoc).
    apply IH. intros k'. unfold dict_keys. rewrite map_app, mem_app.
    change (mem k' (k :: seen)) with (String.eqb k' k || mem k' seen).
    rewrite (Hseen k'). unfold dict_keys. cbn.
    destruct (String.eqb k' k), (mem k' (map fst pre)); reflexivity.
Qed.

Lemma keys_mem_refl ks : forall pre, forallb (fun k => mem k (pre ++ ks)) ks = true.
Proof.
  induction ks as [|k ks IH]; intros pre; cbn; [reflexivity|].
  rewrite mem_app. cbn. rewrite String.eqb_refl, orb_true_r. cbn.
  replace (pre ++ k :: ks) with ((pre ++ [k]) ++ ks) by (now rewrite <- List.app_assoc).
  apply IH.
Qed.

Lemma py_eq_refl v : py_eq v v = true.
Proof.
  induction v as [|b|n|s|items IH|entries IH] using value_ind; cbn.
  - reflexivity.
  - apply Bool.eqb_reflx.
  - apply Z.eqb_refl.
  - apply String.eqb_refl.
  - now apply items_eq_refl.
  - apply andb_true_intro; split.
    + apply (entries_eq_refl py_eq entries IH []). reflexivity.
    + apply (keys_mem_refl (dict_keys entries) []).
Qed.

(** ** The two loops *)

Lemma same_id_eq e r a b :
  py_getitem e "id" = Ok a -> py_getitem r "id" = Ok b -> same_id e r = py_eq a b.
Proof. unfold same_id. now intros -> ->. Qed.

Lemma id_exists_false l r :
  App.EmployeeManagementSystem.id_exists l r = Ok false -> id_occurs l r = false.
Proof.
  induction l as [|e l IH]; [reflexivity|].
  cbn [App.EmployeeManagementSystem.id_exists id_occurs existsb].
  destruct (py_getitem e "id") as [a|] eqn:Ha; cbn [bind]; [|discriminate].
  destruct (py_getitem r "id") as [b|] eqn:Hb; cbn [bind]; [|discriminate].
  rewrite (same_id_eq _ _ _ _ Ha Hb).
  destruct (py_eq a b); [discriminate|]. exact IH.
Qed.

Lemma id_exists_records l r :
  Forall (fun e => has_id e = true) l -> has_id r = true ->
  App.EmployeeManagementSystem.id_exists l r = Ok (id_occurs l r).
Proof.
  intros Hl Hr. induction Hl as [|e l He _ IH]; [reflexivity|].
  cbn [App.EmployeeManagementSystem.id_exists id_occurs existsb].
  unfold has_id in He, Hr.
  destruct (py_getitem e "id") as [a|] eqn:Ha; [|discriminate].
  destruct (py_getitem r "id") as [b|] eqn:Hb; [|discriminate].
  rewrite (same_id_eq _ _ _ _ Ha Hb). cbn [bind].
  destruct (py_eq a b); [reflexivity|exact IH].
Qed.

Lemma id_occurs_has_id l r : id_occurs l r = true -> has_id r = true.
Proof.
  unfold id_occurs. intros H. apply existsb_exists in H as (e & _ & H).
  unfold same_id, has_id in *.
  destruct (py_getitem e "id"); [|discriminate].
  destruct (py_getitem r "id"); [reflexivity|discriminate].
Qed.

(** Past records without the id looked for, the search finds the record
    that carries it. *)
Lemma first_with_id_app l r x :
  App.EmployeeManagementSystem.id_exists l r = Ok false ->
  py_getitem r "id" = Ok x ->
  forall rest, App.EmployeeManagementSystem.first_with_id (l ++ r :: rest) x = Ok (Some r).
Proof.
  intros Hl Hr rest. induction l as [|e l IH].
  - cbn. rewrite Hr. cbn. now rewrite py_eq_refl.
  - cbn [App.EmployeeManagementSystem.id_exists] in Hl.
    cbn [app App.EmployeeManagementSystem.first_with_id].
    destruct (py_getitem e "id") as [a|]; cbn [bind] in *; [|discriminate].
    rewrite Hr in Hl. cbn [bind] in Hl.
    destruct (py_eq a x); [discriminate|]. now apply IH.
Qed.

Lemma unique_ids_app l r :
  unique_ids (l ++ [r]) = unique_ids l && negb (id_occurs l r).
Proof.
  induction l as [|e l IH]; [reflexivity|].
  cbn [app unique_ids]. rewrite forallb_app, IH. clear IH.
  unfold id_occurs. cbn [forallb existsb].
  destruct (same_id e r), (forallb (fun r0 => negb (same_id e r0)) l),
    (unique_ids l), (existsb (fun e0 => same_id e0 r) l); reflexivity.
Qed.

(** ** What an add that reports success has done *)

Lemma py_iter_append all r employees all' :
  py_iter all = Ok employees -> py_append all r = Ok all' ->
  all = VList employees /\ all' = VList (employees ++ [r]).
Proof.
  destruct all; cbn; try discriminate.
  intros [= <-] [= <-]. now split.
Qed.

Lemma app_add_success path r d m d' :
  App.EmployeeManagementSystem.add_employee (app_sys path) r d = (Ok (RTuple true m), d') ->
  exists l,
    load_outcome (d path) = Ok (VList l)
    /\ App.EmployeeManagementSystem.id_exists l r = Ok false
    /\ writable d path = true
    /\ d' = update d path (written (d path) (Json (Some 4%nat) (VList (l ++ [r])))).
Proof.
  rewrite app_add_eq.
  destruct (load_outcome (d path)) as [all|e] eqn:Hload; [|discriminate].
  destruct (py_iter all) as [employees|e] eqn:Hiter; [|discriminate].
  destruct (App.EmployeeManagementSystem.id_exists employees r) as [[|]|e] eqn:Hscan;
    try discriminate.
  destruct (py_append all r) as [all'|e] eqn:Happ; [|discriminate].
  destruct (py_iter_append _ _ _ _ Hiter Happ) as [-> ->].
  destruct (writable d path) eqn:Hw; [|discriminate].
  intros [= _ <-]. now exists employees.
Qed.

Lemma cli_add_success path r d d' :
  Cli.EmployeeManagementSystem.add_employee (cli_sys path) r d = (Ok (RBool true), d') ->
  exists l,
    load_outcome (d path) = Ok (VList l)
    /\ App.EmployeeManagementSystem.id_exists l r = Ok false
    /\ writable d path = true
    /\ d' = update d path (written (d path) (Json (Some 4%nat) (VList (l ++ [r])))).
Proof.
  rewrite cli_add_eq.
  destruct (load_outcome (d path)) as [all|e] eqn:Hload; [|discriminate].
  destruct (py_iter all) as [employees|e] eqn:Hiter; [|discriminate].
  destruct (App.EmployeeManagementSystem.id_exists employees r) as [[|]|e] eqn:Hscan;
    try discriminate.
  destruct (py_append all r) as [all'|e] eqn:Happ; [|discriminate].
  destruct (py_iter_append _ _ _ _ Hiter Happ) as [-> ->].
  destruct (writable d path) eqn:Hw; [|discriminate].
  intros [= <-]. now exists employees.
Qed.

Lemma holds_after_write (d : disk) path all l :
  load_outcome (d path) = Ok all ->
  holds (update d path (written (d path) (Json (Some 4%nat) (VList l)))) path l.
Proof.
  intros H. apply holds_iff. rewrite update_same.
  now apply load_outcome_written with (all := all).
Qed.

(** ** Properties of the record store *)

(** C1.  Add of a record whose id already occurs in the store is rejected
    as a duplicate and the disk is left as it was, in both classes (the
    library class returns the failure with its message, the interactive
    one the bare flag).  In particular, once an add of a record with id
    [x] has reported success, an add of any record with id [x] is
    rejected, and the store lists exactly one record with that id: the
    first one. *)
Theorem add_existing_id_rejected :
  forall path (d : disk) (r : value),
    (forall l,
        holds d path l ->
        Forall (fun e => has_id e = true) l ->
        id_occurs l r = true ->
        App.EmployeeManagementSystem.add_employee (app_sys path) r d
        = (Ok (RTuple false "Employee ID already exists"), d)
        /\ Cli.EmployeeManagementSystem.add_employee (cli_sys path) r d
           = (Ok (RBool false), d))
    /\ (forall d0 r1 x,
        py_getitem r1 "id" = Ok x ->
        py_getitem r "id" = Ok x ->
        (exists m, App.EmployeeManagementSystem.add_employee (app_sys path) r1 d0
                   = (Ok (RTuple true m), d))
        \/ Cli.EmployeeManagementSystem.add_employee (cli_sys path) r1 d0
           = (Ok (RBool true), d) ->
        App.EmployeeManagementSystem.add_employee (app_sys path) r d
        = (Ok (RTuple false "Employee ID already exists"), d)
        /\ Cli.EmployeeManagementSystem.add_employee (cli_sys path) r d
           = (Ok (RBool false), d)
        /\ exists l, holds d path l /\ filter (fun e => same_id e r) l = [r1]).
Proof.
  intros path d r.
  assert (General : forall l,
             load_outcome (d path) = Ok (VList l) ->
             App.EmployeeManagementSystem.id_exists l r = Ok true ->
             App.EmployeeManagementSystem.add_employee (app_sys path) r d
             = (Ok (RTuple false "Employee ID already exists"), d)
             /\ Cli.EmployeeManagementSystem.add_employee (cli_sys path) r d
                = (Ok (RBool false), d)).
  { intros l Hl Hscan. rewrite app_add_eq, cli_add_eq, Hl. cbn [py_iter].
    rewrite Hscan. now split. }
  split.
  - intros l Hl Hrec Hocc. apply General with (l := l).
    + now apply holds_iff.
    + rewrite (id_exists_records l r Hrec (id_occurs_has_id l r Hocc)).
      now rewrite Hocc.
  - intros d0 r1 x Hr1 Hr Hfirst.
    assert (exists l,
               load_outcome (d0 path) = Ok (VList l)
               /\ App.EmployeeManagementSystem.id_exists l r1 = Ok false
               /\ d = update d0 path
                        (written (d0 path) (Json (Some 4%nat) (VList (l ++ [r1])))))
      as (l & Hl & Hscan & ->).
    { destruct Hfirst as [[m H]|H];
        [apply app_add_success in H|apply cli_add_success in H];
        destruct H as (l & ? & ? & ? & ?); now exists l. }
    assert (Hsame : forall e, same_id e r = same_id e r1).
    { intros e. unfold same_id. now rewrite Hr, Hr1. }
    assert (Hhere : load_outcome
                      (update d0 path
                         (written (d0 path) (Json (Some 4%nat) (VList (l ++ [r1])))) path)
                    = Ok (VList (l ++ [r1]))).
    { rewrite update_same. now apply load_outcome_written with (all := VList l). }
    assert (Hocc : forallb (fun e => negb (same_id e r1)) l = true).
    { apply id_exists_false in Hscan. unfold id_occurs in Hscan.
      clear -Hscan. induction l as [|e l IH]; [reflexivity|].
      cbn in *. apply orb_false_elim in Hscan as [-> H]. now apply IH. }
    assert (Hdup : App.EmployeeManagementSystem.id_exists (l ++ [r1]) r = Ok true).
    { clear -Hscan Hr Hr1. induction l as [|e l IH].
      - cbn. rewrite Hr1, Hr. cbn. now rewrite py_eq_refl.
      - cbn [App.EmployeeManagementSystem.id_exists app] in *.
        destruct (py_getitem e "id") as [a|]; cbn [bind] in *; [|discriminate].
        rewrite Hr1 in Hscan. rewrite Hr. cbn [bind] in *.
        destruct (py_eq a x); [reflexivity|]. now apply IH. }
    destruct (General (l ++ [r1]) Hhere Hdup) as [Ha Hc].
    repeat split; [exact Ha|exact Hc|].
    exists (l ++ [r1]). split; [now apply holds_iff|].
    rewrite filter_app. cbn [filter]. rewrite (Hsame r1).
    rewrite (same_id_eq r1 r1 x x Hr1 Hr1), py_eq_refl.
    replace (filter (fun e => same_id e r) l) with (@nil value); [reflexivity|].
    clear -Hocc Hsame. induction l as [|e l IH]; [reflexivity|].
    cbn in *. apply andb_prop in Hocc as [H1 H2]. rewrite Hsame.
    destruct (same_id e r1); [discriminate|]. now apply IH.
Qed.

Lemma add_existing_id_rejected_witness :
  let d := snd (App.EmployeeManagementSystem.add_employee (app_sys employees_json) alice no_file) in
  (App.EmployeeManagementSystem.add_employee (app_sys employees_json) alice_again d
   = (Ok (RTuple false "Employee ID already exists"), d)
   /\ Cli.EmployeeManagementSystem.add_employee (cli_sys employees_json) alice_again d
      = (Ok (RBool false), d))
  /\ exists l, holds d employees_json l /\ filter (fun e => same_id e alice_again) l = [alice].
Proof.
  intros d.
  destruct (add_existing_id_rejected employees_json d alice_again) as [H1 H2].
  split.
  - apply (H1 [alice]); [reflexivity|repeat constructor|reflexivity].
  - apply (H2 no_file alice (VStr "E1")); [reflexivity|reflexivity|].
    left. exists "Employee added successfully"%string. reflexivity.
Defined.

(** C2.  After an add of the record [r] with id [x] has reported success,
    the search for [x] returns [r] itself. *)
Theorem search_after_add :
  forall path (d d' : disk) (r x : value),
    py_getitem r "id" = Ok x ->
    ((exists m, App.EmployeeManagementSystem.add_employee (app_sys path) r d
                = (Ok (RTuple true m), d'))
     \/ Cli.EmployeeManagementSystem.add_employee (cli_sys path) r d
        = (Ok (RBool true), d')) ->
    App.EmployeeManagementSystem.search_employee (app_sys path) x d' = (Ok (Some r), d')
    /\ Cli.EmployeeManagementSystem.search_employee (cli_sys path) x d' = (Ok (Some r), d').
Proof.
  intros path d d' r x Hr Hadd.
  assert (exists l,
             load_outcome (d path) = Ok (VList l)
             /\ App.EmployeeManagementSystem.id_exists l r = Ok false
             /\ d' = update d path
                       (written (d path) (Json (Some 4%nat) (VList (l ++ [r])))))
    as (l & Hl & Hscan & ->).
  { destruct Hadd as [[m H]|H];
      [apply app_add_success in H|apply cli_add_success in H];
      destruct H as (l & ? & ? & ? & ?); now exists l. }
  rewrite cli_search_employee, search_eq, update_same.
  rewrite (load_outcome_written d path (VList l) _ Hl). cbn [bind py_iter].
  now rewrite (first_with_id_app l r x Hscan Hr []).
Qed.

Lemma search_after_add_witness :
  let d' := snd (App.EmployeeManagementSystem.add_employee (app_sys employees_json) bob
                   (file_with (Json None (VList [alice])))) in
  App.EmployeeManagementSystem.search_employee (app_sys employees_json) (VStr "E2") d'
  = (Ok (Some bob), d').
Proof.
  intros d'.
  apply (search_after_add employees_json (file_with (Json None (VList [alice]))) d' bob
           (VStr "E2")); [reflexivity|].
  left. exists "Employee added successfully"%string. reflexivity.
Defined.

(** ** Listing after adds *)

Lemma add_appends path (d d' : disk) l r :
  holds d path l ->
  ((exists m, App.EmployeeManagementSystem.add_employee (app_sys path) r d
              = (Ok (RTuple true m), d'))
   \/ Cli.EmployeeManagementSystem.add_employee (cli_sys path) r d
      = (Ok (RBool true), d')) ->
  holds d' path (l ++ [r]) /\ writable d' path = true.
Proof.
  intros Hl Hadd. apply holds_iff in Hl.
  assert (exists l0,
             load_outcome (d path) = Ok (VList l0)
             /\ d' = update d path
                       (written (d path) (Json (Some 4%nat) (VList (l0 ++ [r])))))
    as (l0 & Hl0 & ->).
  { destruct Hadd as [[m H]|H];
      [apply app_add_success in H|apply cli_add_success in H];
      destruct H as (l0 & ? & ? & ? & ?); now exists l0. }
  rewrite Hl in Hl0. injection Hl0 as <-. split.
  - now apply holds_after_write with (all := VList l).
  - unfold writable. rewrite update_same. unfold written.
    now destruct (d path).
Qed.

Lemma app_add_all_holds path rs :
  forall (d d' : disk) l,
    holds d path l -> app_add_all path rs d = Some d' -> holds d' path (l ++ rs).
Proof.
  induction rs as [|r rs IH]; intros d d' l Hl Hall; cbn in Hall.
  - injection Hall as <-. now rewrite List.app_nil_r.
  - destruct (App.EmployeeManagementSystem.add_employee (app_sys path) r d)
      as [[[b|[|] m]|e] d1] eqn:Hadd; try discriminate.
    replace (l ++ r :: rs) with ((l ++ [r]) ++ rs) by (now rewrite <- List.app_assoc).
    apply (IH d1 d'); [|exact Hall].
    apply (add_appends path d d1 l r Hl). left. now exists m.
Qed.

Lemma cli_add_all_holds path rs :
  forall (d d' : disk) l,
    holds d path l -> cli_add_all path rs d = Some d' -> holds d' path (l ++ rs).
Proof.
  induction rs as [|r rs IH]; intros d d' l Hl Hall; cbn in Hall.
  - injection Hall as <-. now rewrite List.app_nil_r.
  - destruct (Cli.EmployeeManagementSystem.add_employee (cli_sys path) r d)
      as [[[[|]|b m]|e] d1] eqn:Hadd; try discriminate.
    replace (l ++ r :: rs) with ((l ++ [r]) ++ rs) by (now rewrite <- List.app_assoc).
    apply (IH d1 d'); [|exact Hall].
    apply (add_appends path d d1 l r Hl). now right.
Qed.

(** A fresh record with an id goes into a store of records whose file can
    be written. *)
Lemma add_fresh path (d : disk) l r :
  holds d path l ->
  Forall (fun e => has_id e = true) l ->
  has_id r = true ->
  id_occurs l r = false ->
  writable d path = true ->
  exists d',
    App.EmployeeManagementSystem.add_employee (app_sys path) r d
    = (Ok (RTuple true "Employee added successfully"), d')
    /\ Cli.EmployeeManagementSystem.add_employee (cli_sys path) r d
       = (Ok (RBool true), d').
Proof.
  intros Hl Hrec Hr Hfresh Hw. apply holds_iff in Hl.
  eexists. rewrite app_add_eq, cli_add_eq, Hl. cbn [py_iter py_append].
  rewrite (id_exists_records l r Hrec Hr), Hfresh, Hw. split; reflexivity.
Qed.

Lemma id_occurs_app l r e :
  id_occurs (l ++ [r]) e = id_occurs l e || same_id r e.
Proof.
  unfold id_occurs. rewrite existsb_app. cbn. now rewrite orb_false_r.
Qed.

Lemma add_all_progress path rs :
  forall (d : disk) l,
    holds d path l ->
    writable d path = true ->
    Forall (fun e => has_id e = true) l ->
    Forall (fun e => has_id e = true) rs ->
    forallb (fun r => negb (id_occurs l r)) rs = true ->
    unique_ids rs = true ->
    (exists d', app_add_all path rs d = Some d')
    /\ (exists d', cli_add_all path rs d = Some d').
Proof.
  induction rs as [|r rs IH]; intros d l Hl Hw Hrec Hrs Hfresh Huniq.
  - split; now exists d.
  - inversion Hrs as [|? ? Hr Hrs']; subst.
    cbn [forallb unique_ids] in Hfresh, Huniq.
    apply andb_prop in Hfresh as [Hf1 Hf2].
    apply andb_prop in Huniq as [Hu1 Hu2].
    apply negb_true_iff in Hf1.
    destruct (add_fresh path d l r Hl Hrec Hr Hf1 Hw) as (d1 & Ha & Hc).
    destruct (add_appends path d d1 l r Hl) as [Hl1 Hw1].
    { left. eexists. exact Ha. }
    assert (Hnext : forallb (fun r0 => negb (id_occurs (l ++ [r]) r0)) rs = true).
    { clear -Hf2 Hu1. induction rs as [|r0 rs IHrs]; [reflexivity|].
      cbn [forallb] in *.
      apply andb_prop in Hf2 as [H1 H2]. apply andb_prop in Hu1 as [H3 H4].
      rewrite id_occurs_app. apply negb_true_iff in H1, H3. rewrite H1, H3.
      cbn. now apply IHrs. }
    assert (Hrec1 : Forall (fun e => has_id e = true) (l ++ [r])).
    { apply Forall_app. split; [exact Hrec|now constructor]. }
    destruct (IH d1 (l ++ [r]) Hl1 Hw1 Hrec1 Hrs' Hnext Hu2) as [[da Hda] [dc Hdc]].
    split; [exists da|exists dc]; cbn; [rewrite Ha|rewrite Hc]; assumption.
Qed.

(** C3.  A successful add appends its record to the end of the listing
    and leaves the records before it in place.  Hence, from an empty
    store, the listing after adds of [rs] that all reported success is
    [rs], in the order of the adds; and the adds of records with pairwise
    distinct ids do all report success when the file can be written. *)
Theorem listing_after_adds :
  forall path (d : disk),
    (forall l r d',
        holds d path l ->
        ((exists m, App.EmployeeManagementSystem.add_employee (app_sys path) r d
                    = (Ok (RTuple true m), d'))
         \/ Cli.EmployeeManagementSystem.add_employee (cli_sys path) r d
            = (Ok (RBool true), d')) ->
        App.EmployeeManagementSystem.view_all_employees (app_sys path) d'
        = (Ok (VList (l ++ [r])), d'))
    /\ (forall rs,
        holds d path [] ->
        (forall d', app_add_all path rs d = Some d' ->
           App.EmployeeManagementSystem.view_all_employees (app_sys path) d'
           = (Ok (VList rs), d'))
        /\ (forall d', cli_add_all path rs d = Some d' ->
              Cli.EmployeeManagementSystem.view_all_employees (cli_sys path) d'
              = (Ok (VList rs), d'))
        /\ (writable d path = true ->
            Forall (fun e => has_id e = true) rs ->
            unique_ids rs = true ->
            (exists d', app_add_all path rs d = Some d')
            /\ (exists d', cli_add_all path rs d = Some d'))).
Proof.
  intros path d.
  assert (Listing : forall (d' : disk) l,
             holds d' path l ->
             App.EmployeeManagementSystem.view_all_employees (app_sys path) d'
             = (Ok (VList l), d')).
  { intros d' l H. apply holds_iff in H.
    unfold App.EmployeeManagementSystem.view_all_employees.
    now rewrite load_data_eq, H. }
  split.
  - intros l r d' Hl Hadd. apply Listing.
    now apply (add_appends path d d' l r Hl).
  - intros rs Hempty. split; [|split].
    + intros d' Hall. apply (Listing d' rs).
      now apply (app_add_all_holds path rs d d' [] Hempty).
    + intros d' Hall. apply (Listing d' rs).
      now apply (cli_add_all_holds path rs d d' [] Hempty).
    + intros Hw Hrs Huniq.
      apply (add_all_progress path rs d [] Hempty Hw (Forall_nil _) Hrs); [|exact Huniq].
      clear. induction rs as [|r rs IH]; [reflexivity|exact IH].
Qed.

Lemma listing_after_adds_witness :
  exists d',
    app_add_all employees_json [alice; bob] no_file = Some d'
    /\ App.EmployeeManagementSystem.view_all_employees (app_sys employees_json) d'
       = (Ok (VList [alice; bob]), d').
Proof.
  destruct (listing_after_adds employees_json no_file) as [_ H].
  destruct (H [alice; bob]) as (Happ & _ & Hprogress); [reflexivity|].
  destruct Hprogress as [[d' Hd'] _];
    [reflexivity|repeat constructor|reflexivity|].
  exists d'. split; [exact Hd'|]. now apply Happ.
Defined.

(** ** The invariant *)

Lemma store_invariant_eq (d : disk) path :
  store_invariant d path =
  match load_outcome (d path) with
  | Ok (VList l) => unique_ids l
  | _ => true
  end.
Proof.
  unfold store_invariant, App.EmployeeManagementSystem.view_all_employees.
  now rewrite load_data_eq.
Qed.

Lemma add_keeps_invariant path (d : disk) r (out : result retval) d' :
  store_invariant d path = true ->
  (App.EmployeeManagementSystem.add_employee (app_sys path) r d = (out, d')
   \/ Cli.EmployeeManagementSystem.add_employee (cli_sys path) r d = (out, d')) ->
  store_invariant d' path = true.
Proof.
  intros Hinv Hadd.
  assert (d' = d
          \/ exists l,
               load_outcome (d path) = Ok (VList l)
               /\ App.EmployeeManagementSystem.id_exists l r = Ok false
               /\ d' = update d path
                         (written (d path) (Json (Some 4%nat) (VList (l ++ [r])))))
    as [->|(l & Hl & Hscan & ->)]; [|exact Hinv|].
  { rewrite app_add_eq, cli_add_eq in Hadd.
    destruct (load_outcome (d path)) as [all|e] eqn:Hload;
      [|destruct Hadd as [[= _ <-]|[= _ <-]]; now left].
    destruct (py_iter all) as [employees|e] eqn:Hiter;
      [|destruct Hadd as [[= _ <-]|[= _ <-]]; now left].
    destruct (App.EmployeeManagementSystem.id_exists employees r) as [[|]|e] eqn:Hscan;
      try (destruct Hadd as [[= _ <-]|[= _ <-]]; now left).
    destruct (py_append all r) as [all'|e] eqn:Happ;
      [|destruct Hadd as [[= _ <-]|[= _ <-]]; now left].
    destruct (py_iter_append _ _ _ _ Hiter Happ) as [-> ->].
    destruct (writable d path);
      [|destruct Hadd as [[= _ <-]|[= _ <-]]; now left].
    right. exists employees. repeat split; try assumption.
    destruct Hadd as [[= _ <-]|[= _ <-]]; reflexivity. }
  rewrite store_invariant_eq in *. rewrite update_same.
  rewrite (load_outcome_written d path (VList l) _ Hl).
  rewrite Hl in Hinv. rewrite unique_ids_app, Hinv.
  now rewrite (id_exists_false l r Hscan).
Qed.

Lemma init_keeps_invariant path (d : disk) :
  store_invariant d path = true ->
  store_invariant (snd (App.EmployeeManagementSystem.__init__ path d)) path = true
  /\ store_invariant (snd (Cli.EmployeeManagementSystem.__init__ path d)) path = true.
Proof.
  intros Hinv. rewrite init_eq, cli_init_eq.
  destruct (d path) as [| |r w c|denied]; cbn [snd]; split; try exact Hinv;
    rewrite store_invariant_eq, update_same; reflexivity.
Qed.

(** C4.  At most one record per id is an invariant of the store: from a
    disk on which it holds, initialisation, add, search and listing, in
    either class, with any argument and whatever they return or raise,
    lead to a disk on which it holds. *)
Theorem unique_ids_invariant :
  forall path (d : disk),
    store_invariant d path = true ->
    store_invariant (snd (App.EmployeeManagementSystem.__init__ path d)) path = true
    /\ store_invariant (snd (Cli.EmployeeManagementSystem.__init__ path d)) path = true
    /\ (forall r,
          store_invariant
            (snd (App.EmployeeManagementSystem.add_employee (app_sys path) r d)) path = true
          /\ store_invariant
               (snd (Cli.EmployeeManagementSystem.add_employee (cli_sys path) r d)) path = true)
    /\ (forall emp_id,
          store_invariant
            (snd (App.EmployeeManagementSystem.search_employee (app_sys path) emp_id d)) path
          = true
          /\ store_invariant
               (snd (Cli.EmployeeManagementSystem.search_employee (cli_sys path) emp_id d)) path
             = true)
    /\ store_invariant
         (snd (App.EmployeeManagementSystem.view_all_employees (app_sys path) d)) path = true
    /\ store_invariant
         (snd (Cli.EmployeeManagementSystem.view_all_employees (cli_sys path) d)) path = true.
Proof.
  intros path d Hinv.
  destruct (init_keeps_invariant path d Hinv) as [Hi1 Hi2].
  repeat split; try assumption.
  - destruct (App.EmployeeManagementSystem.add_employee (app_sys path) r d)
      as [out d'] eqn:Hadd.
    apply (add_keeps_invariant path d r out d' Hinv). now left.
  - destruct (Cli.EmployeeManagementSystem.add_employee (cli_sys path) r d)
      as [out d'] eqn:Hadd.
    apply (add_keeps_invariant path d r out d' Hinv). now right.
  - now rewrite search_eq.
  - now rewrite cli_search_employee, search_eq.
  - unfold App.EmployeeManagementSystem.view_all_employees. now rewrite load_data_eq.
  - unfold Cli.EmployeeManagementSystem.view_all_employees.
    now rewrite cli_load_data, load_data_eq.
Qed.

Lemma unique_ids_invariant_witness :
  store_invariant (file_with (Json None (VList [alice]))) employees_json = true
  /\ store_invariant
       (snd (App.EmployeeManagementSystem.add_employee (app_sys employees_json) bob
               (file_with (Json None (VList [alice]))))) employees_json = true
  /\ store_invariant
       (snd (App.EmployeeManagementSystem.add_employee (app_sys employees_json) alice_again
               (file_with (Json None (VList [alice]))))) employees_json = true.
Proof.
  split; [reflexivity|].
  destruct (unique_ids_invariant employees_json (file_with (Json None (VList [alice]))))
    as (_ & _ & Hadd & _); [reflexivity|].
  split; [apply (Hadd bob)|apply (Hadd alice_again)].
Defined.

(** C10.  Search and listing leave the disk as it was, in either class,
    whatever they return or raise. *)
Theorem reads_leave_disk :
  forall path (emp_id : value) (d : disk),
    snd (App.EmployeeManagementSystem.search_employee (app_sys path) emp_id d) = d
    /\ snd (App.EmployeeManagementSystem.view_all_employees (app_sys path) d) = d
    /\ snd (Cli.EmployeeManagementSystem.search_employee (cli_sys path) emp_id d) = d
    /\ snd (Cli.EmployeeManagementSystem.view_all_employees (cli_sys path) d) = d.
Proof.
  intros path emp_id d.
  rewrite cli_search_employee, search_eq.
  unfold App.EmployeeManagementSystem.view_all_employees,
    Cli.EmployeeManagementSystem.view_all_employees.
  rewrite cli_load_data, load_data_eq. repeat split.
Qed.

(** C9, as the spec has it, fails: at a path where nothing exists and no
    file can be created (the empty path, a path through a directory that
    does not exist) initialisation raises the [FileNotFoundError] of
    [open] and creates nothing; [__init__] has no handler around it. *)
Lemma init_raises_where_no_file_can_be :
  exists_ nowhere EmptyString = false
  /\ App.EmployeeManagementSystem.__init__ EmptyString nowhere
     = (Raise FileNotFoundError, nowhere)
  /\ Cli.EmployeeManagementSystem.__init__ EmptyString nowhere
     = (Raise FileNotFoundError, nowhere)
  /\ exists_ nowhere "no_such_dir/employees.json"%string = false
  /\ App.EmployeeManagementSystem.__init__ "no_such_dir/employees.json"%string nowhere
     = (Raise FileNotFoundError, nowhere)
  /\ Cli.EmployeeManagementSystem.__init__ "no_such_dir/employees.json"%string nowhere
     = (Raise FileNotFoundError, nowhere).
Proof. repeat split. Qed.

(** C9, amended.  Against a path where nothing exists and a file can be
    created, initialisation creates the file with the text of the empty
    array, and the listing right after it is the empty list.  Against a
    path where nothing exists and no file can be created it raises the
    error of [open] ([FileNotFoundError], or [PermissionError] when the
    directory cannot be written) and leaves the disk as it was.  Where
    something exists already, initialisation raises nothing and leaves
    the disk as it was, whatever is there. *)
Theorem init_creates_empty_store :
  forall path (d : disk),
    (d path = Absent ->
     exists d',
       App.EmployeeManagementSystem.__init__ path d = (Ok (app_sys path), d')
       /\ Cli.EmployeeManagementSystem.__init__ path d = (Ok (cli_sys path), d')
       /\ file_text d' path = Some "[]"%string
       /\ App.EmployeeManagementSystem.view_all_employees (app_sys path) d'
          = (Ok (VList []), d')
       /\ Cli.EmployeeManagementSystem.view_all_employees (cli_sys path) d'
          = (Ok (VList []), d'))
    /\ (forall denied,
          d path = Uncreatable denied ->
          App.EmployeeManagementSystem.__init__ path d
          = (Raise (if denied then PermissionError else FileNotFoundError), d)
          /\ Cli.EmployeeManagementSystem.__init__ path d
             = (Raise (if denied then PermissionError else FileNotFoundError), d))
    /\ (exists_ d path = true ->
        App.EmployeeManagementSystem.__init__ path d = (Ok (app_sys path), d)
        /\ Cli.EmployeeManagementSystem.__init__ path d = (Ok (cli_sys path), d)).
Proof.
  intros path d. split; [|split].
  - intros Habs.
    exists (update d path (Regular true true (Json None (VList [])))).
    rewrite init_eq, cli_init_eq, Habs.
    unfold App.EmployeeManagementSystem.view_all_employees,
      Cli.EmployeeManagementSystem.view_all_employees, file_text.
    rewrite cli_load_data, load_data_eq, update_same. repeat split.
  - intros denied Hno. rewrite init_eq, cli_init_eq, Hno. now split.
  - intros Hex. rewrite init_eq, cli_init_eq. unfold exists_ in Hex.
    destruct (d path) as [| |r w c|denied]; try discriminate; now split.
Qed.

Lemma init_creates_empty_store_witness :
  (exists d',
      App.EmployeeManagementSystem.__init__ employees_json no_file
      = (Ok (app_sys employees_json), d')
      /\ file_text d' employees_json = Some "[]"%string
      /\ App.EmployeeManagementSystem.view_all_employees (app_sys employees_json) d'
         = (Ok (VList []), d'))
  /\ App.EmployeeManagementSystem.__init__ employees_json
       (update no_file employees_json (Uncreatable true))
     = (Raise PermissionError, update no_file employees_json (Uncreatable true))
  /\ App.EmployeeManagementSystem.__init__ employees_json (file_with Malformed)
     = (Ok (app_sys employees_json), file_with Malformed).
Proof.
  split; [|split].
  - destruct (init_creates_empty_store employees_json no_file) as [H _].
    destruct H as (d' & Ha & _ & Ht & Hl & _); [reflexivity|].
    exists d'. now repeat split.
  - destruct (init_creates_empty_store employees_json
                (update no_file employees_json (Uncreatable true))) as (_ & H & _).
    destruct (H true) as [Ha _]; [reflexivity|exact Ha].
  - destruct (init_creates_empty_store employees_json (file_with Malformed))
      as (_ & _ & H).
    destruct H as [Ha _]; [reflexivity|exact Ha].
Defined.

(** ** Loading *)

(** C5.  The load is to return the empty list on every file error: the
    docstring of [_load_data] in [employee_management_system.py] promises
    an empty list if file error, and the comment on its handler an empty
    list when the file does not exist or is corrupted.  The handler names
    [FileNotFoundError] and [json.JSONDecodeError] only.  On a file that
    exists and cannot be opened for reading the load raises
    [PermissionError], and on a file whose bytes are not text in the
    encoding it raises [UnicodeDecodeError]; so it does in both classes,
    where the empty list was due. *)
Theorem load_data_raises_when_unreadable :
  App.EmployeeManagementSystem._load_data (app_sys employees_json) unreadable_file
  = (Raise PermissionError, unreadable_file)
  /\ Cli.EmployeeManagementSystem._load_data (cli_sys employees_json) unreadable_file
     = (Raise PermissionError, unreadable_file)
  /\ App.EmployeeManagementSystem._load_data (app_sys employees_json) (file_with Undecodable)
     = (Raise UnicodeDecodeError, file_with Undecodable)
  /\ Cli.EmployeeManagementSystem._load_data (cli_sys employees_json) (file_with Undecodable)
     = (Raise UnicodeDecodeError, file_with Undecodable).
Proof. repeat split. Qed.

(** ** What add returns *)

(** C6, as the spec has it, fails: the add of the interactive program
    returns a bare flag, not a pair. *)
Lemma cli_add_returns_bare_flag :
  fst (Cli.EmployeeManagementSystem.add_employee (cli_sys employees_json) alice no_file)
  = Ok (RBool true)
  /\ fst (Cli.EmployeeManagementSystem.add_employee (cli_sys employees_json) alice_again
            (file_with (Json None (VList [alice]))))
     = Ok (RBool false).
Proof. split; reflexivity. Qed.

(** C6, amended.  Whatever the add of the library class returns is a pair
    of a flag and one of its three messages; whatever the add of the
    interactive program returns is a bare flag.  On a store of records,
    given a record with an id, both do return. *)
Theorem add_return_shape :
  forall path (d : disk) (r : value),
    (forall out,
        fst (App.EmployeeManagementSystem.add_employee (app_sys path) r d) = Ok out ->
        out = RTuple true "Employee added successfully"
        \/ out = RTuple false "Employee ID already exists"
        \/ out = RTuple false "Error saving employee")
    /\ (forall out,
        fst (Cli.EmployeeManagementSystem.add_employee (cli_sys path) r d) = Ok out ->
        exists b, out = RBool b)
    /\ (forall l,
        holds d path l ->
        Forall (fun e => has_id e = true) l ->
        has_id r = true ->
        (exists b m,
            fst (App.EmployeeManagementSystem.add_employee (app_sys path) r d)
            = Ok (RTuple b m))
        /\ (exists b,
            fst (Cli.EmployeeManagementSystem.add_employee (cli_sys path) r d)
            = Ok (RBool b))).
Proof.
  intros path d r. rewrite app_add_eq, cli_add_eq. split; [|split].
  - intros out.
    destruct (load_outcome (d path)) as [all|e]; [|discriminate].
    destruct (py_iter all) as [employees|e]; [|discriminate].
    destruct (App.EmployeeManagementSystem.id_exists employees r) as [[|]|e];
      [intros [= <-]; auto| |discriminate].
    destruct (py_append all r) as [all'|e]; [|discriminate].
    destruct (writable d path); intros [= <-]; auto.
  - intros out.
    destruct (load_outcome (d path)) as [all|e]; [|discriminate].
    destruct (py_iter all) as [employees|e]; [|discriminate].
    destruct (App.EmployeeManagementSystem.id_exists employees r) as [[|]|e];
      [intros [= <-]; eauto| |discriminate].
    destruct (py_append all r) as [all'|e]; [|discriminate].
    destruct (writable d path); intros [= <-]; eauto.
  - intros l Hl Hrec Hr. apply holds_iff in Hl. rewrite Hl. cbn [py_iter py_append].
    rewrite (id_exists_records l r Hrec Hr).
    destruct (id_occurs l r); [split; cbn [fst]; eauto|].
    destruct (writable d path); split; cbn [fst]; eauto.
Qed.

Lemma add_return_shape_witness :
  (exists b m,
      fst (App.EmployeeManagementSystem.add_employee (app_sys employees_json) bob
             (file_with (Json None (VList [alice]))))
      = Ok (RTuple b m))
  /\ (exists b,
      fst (Cli.EmployeeManagementSystem.add_employee (cli_sys employees_json) bob
             (file_with (Json None (VList [alice]))))
      = Ok (RBool b)).
Proof.
  destruct (add_return_shape employees_json (file_with (Json None (VList [alice]))) bob)
    as (_ & _ & H).
  apply (H [alice]); [reflexivity|repeat constructor|reflexivity].
Defined.

(** ** The POST route *)

Lemma mem_keys_dict_get f b :
  mem f (dict_keys b) = match dict_get f b with Some _ => true | None => false end.
Proof.
  induction b as [|[k v] b IH]; cbn; [reflexivity|].
  destruct (String.eqb f k); [reflexivity|exact IH].
Qed.

Lemma first_missing_dict fields b :
  App.first_missing fields (VDict b)
  = Ok (find (fun f => negb (field_ok b f)) fields).
Proof.
  induction fields as [|f fields IH]; [reflexivity|].
  cbn [App.first_missing find py_contains py_getitem bind].
  rewrite mem_keys_dict_get. unfold field_ok.
  destruct (dict_get f b) as [v|]; cbn [negb bind]; [|reflexivity].
  destruct (truthy v); cbn [negb]; [exact IH|reflexivity].
Qed.

Lemma find_none_forallb fields b :
  find (fun f => negb (field_ok b f)) fields = None <->
  forallb (field_ok b) fields = true.
Proof.
  induction fields as [|f fields IH]; cbn; [easy|].
  destruct (field_ok b f); cbn; [exact IH|easy].
Qed.

Lemma valid_body_has_id b : valid_body b = true -> has_id (VDict b) = true.
Proof.
  unfold valid_body, has_id. cbn. unfold field_ok at 1.
  destruct (dict_get "id" b); [reflexivity|discriminate].
Qed.

Lemma route_add_eq b (d : disk) :
  App.add_employee (VDict b) d =
  match find (fun f => negb (field_ok b f)) App.required_fields with
  | Some field =>
      (Ok (VDict [("error", VStr ("Missing required field: " ++ field))]%string, 400%Z), d)
  | None =>
      match App.EmployeeManagementSystem.add_employee (app_sys App.DATA_FILE) (VDict b) d with
      | (Ok (RTuple true message), d') =>
          (Ok (VDict [("message", VStr message)]%string, 201%Z), d')
      | (Ok (RTuple false message), d') =>
          (Ok (VDict [("error", VStr message)]%string, 400%Z), d')
      | (Ok (RBool _), d') => (Raise TypeError, d')
      | (Raise e, d') => (Raise e, d')
      end
  end.
Proof.
  unfold App.add_employee, bindM at 1, lift at 1.
  rewrite first_missing_dict.
  destruct (find (fun f => negb (field_ok b f)) App.required_fields); [reflexivity|].
  unfold bindM at 1. change App.system with (app_sys App.DATA_FILE).
  destruct (App.EmployeeManagementSystem.add_employee (app_sys App.DATA_FILE) (VDict b) d)
    as [[[flag|[|] message]|e] d']; reflexivity.
Qed.

Lemma find_split b fields field :
  find (fun f => negb (field_ok b f)) fields = Some field ->
  exists pre post,
    fields = pre ++ field :: post
    /\ forallb (field_ok b) pre = true
    /\ field_ok b field = false.
Proof.
  induction fields as [|f fields IH]; [discriminate|]. cbn [find].
  destruct (field_ok b f) eqn:Hf; cbn [negb].
  - intros H. destruct (IH H) as (pre & post & -> & Hpre & Hx).
    exists (f :: pre), post. cbn [forallb app]. rewrite Hf, Hpre. now repeat split.
  - intros [= <-]. now exists [], fields.
Qed.

(** C8, as the spec has it, fails: a body with its four fields and a
    fresh id is answered 400 when the file cannot be written. *)
Lemma post_valid_body_answered_400 :
  valid_body alice_entries = true
  /\ holds read_only_file App.DATA_FILE []
  /\ App.add_employee (VDict alice_entries) read_only_file
     = (Ok (VDict [("error", VStr "Error saving employee")]%string, 400%Z), read_only_file).
Proof. repeat split. Qed.

(** C8, amended.  For a body that is a JSON object: when one of the four
    required fields is missing or falsy the answer is 400 with an error
    naming the first such field, in the order id, name, department,
    salary, and the disk is left as it was.  When the four are there and
    truthy and the store holds records: an id that occurs already is
    answered 400 and the disk is left as it was; with a fresh id the save
    of the records followed by the body returns a flag, and the answer is
    201 when the flag is [True] and 400 with the error of a failed save
    when it is [False], on the disk the save left. *)
Theorem post_employee_answers :
  forall (b : list (string * value)) (d : disk),
    (valid_body b = false ->
     exists pre field post,
       App.required_fields = pre ++ field :: post
       /\ forallb (field_ok b) pre = true
       /\ field_ok b field = false
       /\ App.add_employee (VDict b) d
          = (Ok (VDict [("error", VStr ("Missing required field: " ++ field))]%string, 400%Z),
             d))
    /\ (valid_body b = true ->
        forall l,
          holds d App.DATA_FILE l ->
          Forall (fun e => has_id e = true) l ->
          (id_occurs l (VDict b) = true ->
           App.add_employee (VDict b) d
           = (Ok (VDict [("error", VStr "Employee ID already exists")]%string, 400%Z), d))
          /\ (id_occurs l (VDict b) = false ->
              exists saved d',
                App.EmployeeManagementSystem._save_data (app_sys App.DATA_FILE)
                  (VList (l ++ [VDict b])) d = (Ok saved, d')
                /\ App.add_employee (VDict b) d
                   = (Ok (if saved
                          then (VDict [("message", VStr "Employee added successfully")]%string,
                                201%Z)
                          else (VDict [("error", VStr "Error saving employee")]%string,
                                400%Z)),
                      d'))).
Proof.
  intros b d. rewrite route_add_eq. split.
  - intros Hbad.
    destruct (find (fun f => negb (field_ok b f)) App.required_fields) as [field|] eqn:Hfind.
    + apply find_split in Hfind as (pre & post & Heq & Hpre & Hf).
      exists pre, field, post. now repeat split.
    + apply find_none_forallb in Hfind. unfold valid_body in Hbad. congruence.
  - intros Hgood l Hl Hrec.
    assert (Hfind : find (fun f => negb (field_ok b f)) App.required_fields = None)
      by now apply find_none_forallb.
    rewrite Hfind, app_add_eq, save_data_eq.
    assert (Hload := proj1 (holds_iff _ _ _) Hl). rewrite Hload.
    cbn [py_iter py_append].
    rewrite (id_exists_records l (VDict b) Hrec (valid_body_has_id b Hgood)).
    split.
    + now intros ->.
    + intros ->. destruct (writable d App.DATA_FILE); eexists _, _; split; reflexivity.
Qed.

Lemma post_employee_answers_witness :
  (exists pre field post,
      App.required_fields = pre ++ field :: post
      /\ forallb (field_ok no_salary) pre = true
      /\ field_ok no_salary field = false
      /\ App.add_employee (VDict no_salary) (file_with (Json None (VList [bob])))
         = (Ok (VDict [("error", VStr ("Missing required field: " ++ field))]%string, 400%Z),
            file_with (Json None (VList [bob]))))
  /\ fst (App.add_employee (VDict alice_entries) (file_with (Json None (VList [bob]))))
     = Ok (VDict [("message", VStr "Employee added successfully")]%string, 201%Z).
Proof.
  split.
  - destruct (post_employee_answers no_salary (file_with (Json None (VList [bob]))))
      as [H _].
    apply H. reflexivity.
  - destruct (post_employee_answers alice_entries (file_with (Json None (VList [bob]))))
      as [_ H].
    destruct (H eq_refl [bob]) as (_ & Hfresh);
      [reflexivity|repeat constructor|].
    destruct Hfresh as (saved & d' & Hsave & Hpost); [reflexivity|].
    rewrite Hpost. rewrite save_data_eq in Hsave. injection Hsave as <- _.
    reflexivity.
Defined.

(** ** Reading back what [json.dump] writes *)

Lemma append_assoc (a b c : string) : ((a ++ b) ++ c = a ++ (b ++ c))%string.
Proof. induction a as [|x a IH]; cbn; [reflexivity|now rewrite IH]. Qed.

Lemma append_nil_r (a : string) : (a ++ EmptyString)%string = a.
Proof. induction a as [|x a IH]; cbn; [reflexivity|now rewrite IH]. Qed.

Lemma length_append (a b : string) :
  String.length (a ++ b) = String.length a + String.length b.
Proof. induction a as [|x a IH]; cbn; [reflexivity|now rewrite IH]. Qed.

Lemma skip_ws_spaces n s : skip_ws (spaces n ++ s) = skip_ws s.
Proof. induction n as [|n IH]; [reflexivity|exact IH]. Qed.

Lemma skip_ws_newline_indent indent level s :
  skip_ws (newline_indent indent level ++ s) = skip_ws s.
Proof.
  destruct indent as [n|]; [|reflexivity].
  cbn. apply skip_ws_spaces.
Qed.

(** ** Strings are read back *)

Lemma decode_escape_char c s rest t :
  decode_string s = Some (t, rest) ->
  decode_string (escape_char c ++ s) = Some (String c t, rest).
Proof.
  intros H.
  destruct c as [[|] [|] [|] [|] [|] [|] [|] [|]];
    match goal with
    | |- context [escape_char ?c] =>
        let e := eval vm_compute in (escape_char c) in
        change (escape_char c) with e
    end;
    simpl; rewrite H; reflexivity.
Qed.

Lemma decode_escape s rest :
  decode_string (escape s ++ String dquote rest) = Some (s, rest).
Proof.
  induction s as [|c s IH]; [reflexivity|].
  cbn [escape]. rewrite append_assoc. now apply decode_escape_char.
Qed.

(** ** Integers are read back *)

Lemma span_digits_uint u rest :
  ends_token rest = true ->
  span_digits (NilEmpty.string_of_uint u ++ rest) = (NilEmpty.string_of_uint u, rest).
Proof.
  intros Hrest. induction u; cbn; try (rewrite IHu; reflexivity).
  destruct rest as [|c rest]; [reflexivity|].
  cbn in Hrest. apply andb_prop in Hrest as [H _].
  apply negb_true_iff in H. cbn. now rewrite H.
Qed.

Lemma to_uint_head p d : Pos.to_uint p <> Decimal.D0 d.
Proof.
  assert (Hnorm : Decimal.unorm (Pos.to_uint p) = Pos.to_uint p).
  { rewrite <- DecimalPos.Unsigned.to_of, DecimalPos.Unsigned.of_to. reflexivity. }
  intros H.
  destruct (Decimal.uint_eq_dec (Decimal.nzhead (Pos.to_uint p)) Decimal.Nil) as [Hnz|Hnz].
  - apply unorm_0 in Hnz. rewrite Hnorm in Hnz.
    now apply (Unsigned.to_uint_nonzero p).
  - rewrite (unorm_nzhead _ Hnz) in Hnorm. rewrite H in Hnorm.
    now apply nzhead_nonzero in Hnorm.
Qed.

Lemma parse_digits_pos p rest :
  ends_token rest = true ->
  parse_digits (NilEmpty.string_of_uint (Pos.to_uint p) ++ rest) = Some (Z.pos p, rest).
Proof.
  intros Hrest. unfold parse_digits. rewrite (span_digits_uint _ _ Hrest).
  assert (Hint : ends_int rest = true).
  { destruct rest; [reflexivity|]. cbn in Hrest. now apply andb_prop in Hrest. }
  rewrite NilEmpty.usu, Hint.
  assert (Hz : Z.of_uint (Pos.to_uint p) = Z.pos p).
  { unfold Z.of_uint. now rewrite DecimalPos.Unsigned.of_to. }
  rewrite Hz.
  pose proof (Unsigned.to_uint_nonnil p) as Hnil.
  pose proof (to_uint_head p) as Hhead.
  destruct (Pos.to_uint p) as [|u|u|u|u|u|u|u|u|u|u]; try congruence;
    try (destruct u; reflexivity).
Qed.

Lemma string_of_uint_pos p :
  NilZero.string_of_uint (Pos.to_uint p) = NilEmpty.string_of_uint (Pos.to_uint p).
Proof.
  pose proof (Unsigned.to_uint_nonnil p) as Hnil.
  unfold NilZero.string_of_uint. now destruct (Pos.to_uint p).
Qed.

Lemma string_of_uint_head u :
  u <> Decimal.Nil ->
  exists c t, NilEmpty.string_of_uint u = String c t /\ is_digit c = true.
Proof. destruct u; [congruence|..]; intros _; cbn; eauto. Qed.

Lemma parse_number_digit c s :
  is_digit c = true -> parse_number (String c s) = parse_digits (String c s).
Proof.
  intros H. unfold parse_number.
  destruct (Ascii.eqb c "-") eqn:E; [|reflexivity].
  apply Ascii.eqb_eq in E. subst. discriminate.
Qed.

Lemma parse_number_encode n rest :
  ends_token rest = true ->
  parse_number (encode_int n ++ rest) = Some (n, rest).
Proof.
  intros Hrest. unfold encode_int.
  destruct n as [|p|p]; cbn [Z.to_int NilZero.string_of_int].
  - change (NilZero.string_of_uint (Decimal.D0 Decimal.Nil))
      with (NilEmpty.string_of_uint (Decimal.D0 Decimal.Nil)).
    cbn [NilEmpty.string_of_uint append]. rewrite parse_number_digit by reflexivity.
    change (String "0" rest)
      with (NilEmpty.string_of_uint (Decimal.D0 Decimal.Nil) ++ rest)%string.
    unfold parse_digits. rewrite (span_digits_uint _ _ Hrest).
    assert (Hint : ends_int rest = true).
    { destruct rest; [reflexivity|]. cbn in Hrest. now apply andb_prop in Hrest. }
    cbn. now rewrite Hint.
  - rewrite string_of_uint_pos.
    destruct (string_of_uint_head _ (Unsigned.to_uint_nonnil p)) as (c & t & Hc & Hd).
    pose proof (parse_digits_pos p rest Hrest) as H.
    rewrite Hc in *. cbn [append] in *. now rewrite parse_number_digit.
  - rewrite string_of_uint_pos. cbn [append].
    unfold parse_number. cbn [Ascii.eqb Bool.eqb].
    now rewrite (parse_digits_pos p rest Hrest).
Qed.

(** The first character of the text of an integer. *)
Lemma encode_int_head n :
  exists c t, encode_int n = String c t /\ (is_digit c || Ascii.eqb c "-") = true.
Proof.
  unfold encode_int.
  destruct n as [|p|p]; cbn [Z.to_int NilZero.string_of_int].
  - now exists "0"%char, EmptyString.
  - rewrite string_of_uint_pos.
    destruct (string_of_uint_head _ (Unsigned.to_uint_nonnil p)) as (c & t & Hc & Hd).
    exists c, t. now rewrite Hd.
  - now eexists "-"%char, _.
Qed.

(** ** Objects are read back *)

Lemma value_head_facts c :
  value_head c = true ->
  is_ws c = false /\ Ascii.eqb c "]" = false /\ Ascii.eqb c "}" = false.
Proof.
  destruct c as [[|] [|] [|] [|] [|] [|] [|] [|]]; vm_compute; intros H;
    try discriminate H; repeat split.
Qed.

Lemma parse_value_int c t fuel :
  (is_digit c || Ascii.eqb c "-") = true ->
  parse_value (S fuel) (String c t) =
  match parse_number (String c t) with
  | Some (n, r) => Some (VInt n, r)
  | None => None
  end.
Proof.
  destruct c as [[|] [|] [|] [|] [|] [|] [|] [|]]; intros H;
    try discriminate H; reflexivity.
Qed.

Lemma encode_head indent level v :
  exists c t, encode indent level v = String c t /\ value_head c = true.
Proof.
  destruct v as [|[|]|n|s|[|x items]|[|kv entries]];
    try (cbn [encode append]; unfold encode_string;
         eexists _, _; split; reflexivity).
  cbn [encode]. destruct (encode_int_head n) as (c & t & -> & H).
  exists c, t. split; [reflexivity|]. unfold value_head.
  apply orb_prop in H as [-> | ->]; cbn; now rewrite ?orb_true_r.
Qed.

Lemma skip_ws_encode indent level v r :
  skip_ws (encode indent level v ++ r) = (encode indent level v ++ r)%string.
Proof.
  destruct (encode_head indent level v) as (c & t & -> & H).
  apply value_head_facts in H as [H _]. cbn. now rewrite H.
Qed.

Lemma separator_text indent level X :
  ((item_separator indent ++ newline_indent indent level) ++ X)%string
  = String "," (pad indent level ++ X).
Proof. destruct indent; reflexivity. Qed.

Lemma skip_ws_pad indent level X : skip_ws (pad indent level ++ X) = skip_ws X.
Proof. destruct indent; [apply skip_ws_newline_indent|reflexivity]. Qed.

Lemma closing_text indent level c rest :
  is_ws c = false -> is_digit c = false -> ends_int (String c rest) = true ->
  ends_token (newline_indent indent level ++ String c rest) = true
  /\ skip_ws (newline_indent indent level ++ String c rest) = String c rest.
Proof.
  intros Hws Hd He. split.
  - destruct indent; [reflexivity|]. cbn [newline_indent append ends_token].
    now rewrite Hd, He.
  - rewrite skip_ws_newline_indent. cbn. now rewrite Hws.
Qed.

Lemma parse_elements_S fuel s :
  parse_elements (S fuel) s =
  match parse_value fuel s with
  | None => None
  | Some (v, r) =>
      match skip_ws r with
      | EmptyString => None
      | String c r1 =>
          if Ascii.eqb c "," then
            match parse_elements fuel (skip_ws r1) with
            | Some (vs, r2) => Some (v :: vs, r2)
            | None => None
            end
          else if Ascii.eqb c "]" then Some ([v], r1)
          else None
      end
  end.
Proof. reflexivity. Qed.

Lemma parse_members_S fuel s' :
  parse_members (S fuel) (String dquote s') =
  match decode_string s' with
  | None => None
  | Some (k, r) =>
      match skip_ws r with
      | EmptyString => None
      | String c1 r1 =>
          if Ascii.eqb c1 ":" then
            match parse_value fuel (skip_ws r1) with
            | None => None
            | Some (v, r2) =>
                match skip_ws r2 with
                | EmptyString => None
                | String c2 r3 =>
                    if Ascii.eqb c2 "," then
                      match parse_members fuel (skip_ws r3) with
                      | Some (kvs, r4) => Some ((k, v) :: kvs, r4)
                      | None => None
                      end
                    else if Ascii.eqb c2 "}" then Some ([(k, v)], r3)
                    else None
                end
            end
          else None
      end
  end.
Proof. reflexivity. Qed.

Lemma parse_value_list fuel s' :
  parse_value (S fuel) (String "[" s') =
  match skip_ws s' with
  | EmptyString => None
  | String c1 r1 =>
      if Ascii.eqb c1 "]" then Some (VList [], r1)
      else match parse_elements fuel (String c1 r1) with
           | Some (vs, r) => Some (VList vs, r)
           | None => None
           end
  end.
Proof. reflexivity. Qed.

Lemma parse_value_dict fuel s' :
  parse_value (S fuel) (String "{" s') =
  match skip_ws s' with
  | EmptyString => None
  | String c1 r1 =>
      if Ascii.eqb c1 "}" then Some (VDict [], r1)
      else match parse_members fuel (String c1 r1) with
           | Some (kvs, r) => Some (VDict kvs, r)
           | None => None
           end
  end.
Proof. reflexivity. Qed.

Lemma parse_value_str fuel s' :
  parse_value (S fuel) (String dquote s') =
  match decode_string s' with
  | Some (t, r) => Some (VStr t, r)
  | None => None
  end.
Proof. reflexivity. Qed.

Lemma parse_elements_join indent level items :
  Forall (reads_back indent) items ->
  forall fuel rest,
    items <> [] ->
    list_sum (map (fun x => S (cost x)) items) <= fuel ->
    parse_elements fuel
      (join (item_separator indent ++ newline_indent indent (S level))
         (map (encode indent (S level)) items)
       ++ newline_indent indent level ++ String "]" rest)
    = Some (items, rest).
Proof.
  induction 1 as [|x items Hx Hitems IH]; intros fuel rest Hne Hfuel; [congruence|].
  change (S (cost x) + list_sum (map (fun x => S (cost x)) items) <= fuel) in Hfuel.
  destruct fuel as [|fuel]; [lia|].
  rewrite parse_elements_S.
  destruct (closing_text indent level "]" rest eq_refl eq_refl eq_refl) as [Hend Hskip].
  destruct items as [|y items'].
  - cbn [map join].
    rewrite (Hx (S level) fuel _ ltac:(lia) Hend).
    rewrite Hskip. reflexivity.
  - change (join ?sep (map ?f (x :: y :: items')))
      with (f x ++ sep ++ join sep (map f (y :: items')))%string.
    rewrite !append_assoc. rewrite <- (append_assoc (item_separator indent)).
    rewrite separator_text.
    rewrite (Hx (S level) fuel) by first [lia | reflexivity].
    cbn [skip_ws is_ws Ascii.eqb Bool.eqb orb].
    rewrite skip_ws_pad.
    assert (Hnext : forall tail,
               skip_ws (join (item_separator indent ++ newline_indent indent (S level))
                          (map (encode indent (S level)) (y :: items')) ++ tail)
               = (join (item_separator indent ++ newline_indent indent (S level))
                    (map (encode indent (S level)) (y :: items')) ++ tail)%string).
    { intros tail. destruct items' as [|z items''].
      - cbn [map join]. apply skip_ws_encode.
      - change (join ?sep (map ?f (y :: z :: items'')))
          with (f y ++ sep ++ join sep (map f (z :: items'')))%string.
        rewrite !append_assoc. apply skip_ws_encode. }
    rewrite Hnext.
    rewrite (IH fuel rest ltac:(discriminate) ltac:(lia)).
    reflexivity.
Qed.

Lemma member_text k X :
  (encode_string k ++ key_separator ++ X)%string
  = String dquote (escape k ++ String dquote (String ":" (String " " X))).
Proof.
  unfold encode_string, key_separator, str1. cbn [append].
  now rewrite append_assoc.
Qed.

Lemma parse_members_join indent level entries :
  Forall (fun kv => reads_back indent (snd kv)) entries ->
  forall fuel rest,
    entries <> [] ->
    list_sum (map (fun kv => S (cost (snd kv))) entries) <= fuel ->
    parse_members fuel
      (join (item_separator indent ++ newline_indent indent (S level))
         (map (fun kv => encode_string (fst kv) ++ key_separator
                         ++ encode indent (S level) (snd kv))%string entries)
       ++ newline_indent indent level ++ String "}" rest)
    = Some (entries, rest).
Proof.
  induction 1 as [|[k x] entries Hx Hentries IH]; intros fuel rest Hne Hfuel; [congruence|].
  change (S (cost x) + list_sum (map (fun kv => S (cost (snd kv))) entries) <= fuel)
    in Hfuel.
  cbn [snd] in Hx.
  destruct fuel as [|fuel]; [lia|].
  destruct (closing_text indent level "}" rest eq_refl eq_refl eq_refl) as [Hend Hskip].
  destruct entries as [|[k' y] entries'].
  - cbn [map join fst snd]. rewrite !append_assoc, member_text.
    rewrite parse_members_S, decode_escape.
    cbn [skip_ws is_ws Ascii.eqb Bool.eqb orb].
    rewrite skip_ws_encode.
    rewrite (Hx (S level) fuel _ ltac:(lia) Hend).
    rewrite Hskip. reflexivity.
  - change (join ?sep (map ?f ((k, x) :: (k', y) :: entries')))
      with (f (k, x) ++ sep ++ join sep (map f ((k', y) :: entries')))%string.
    cbn [fst snd]. rewrite !append_assoc. rewrite member_text.
    rewrite <- (append_assoc (item_separator indent)).
    rewrite separator_text.
    rewrite parse_members_S, decode_escape.
    cbn [skip_ws is_ws Ascii.eqb Bool.eqb orb].
    rewrite <- append_assoc. rewrite skip_ws_encode, append_assoc.
    rewrite (Hx (S level) fuel) by first [lia | reflexivity].
    cbn [skip_ws is_ws Ascii.eqb Bool.eqb orb].
    rewrite skip_ws_pad.
    assert (Hnext : forall tail,
               skip_ws (join (item_separator indent ++ newline_indent indent (S level))
                          (map (fun kv => encode_string (fst kv) ++ key_separator
                                          ++ encode indent (S level) (snd kv))%string
                             ((k', y) :: entries')) ++ tail)
               = (join (item_separator indent ++ newline_indent indent (S level))
                    (map (fun kv => encode_string (fst kv) ++ key_separator
                                    ++ encode indent (S level) (snd kv))%string
                       ((k', y) :: entries')) ++ tail)%string).
    { intros tail. destruct entries' as [|z entries'']; reflexivity. }
    rewrite Hnext.
    rewrite (IH fuel rest ltac:(discriminate) ltac:(lia)).
    reflexivity.
Qed.

Lemma elements_head indent level x items tail :
  exists c t,
    (join (item_separator indent ++ newline_indent indent level)
       (map (encode indent level) (x :: items)) ++ tail)%string = String c t
    /\ value_head c = true.
Proof.
  destruct (encode_head indent level x) as (c & t & Hc & H).
  destruct items as [|y items].
  - cbn [map join]. rewrite Hc. cbn. eauto.
  - change (join ?sep (map ?f (x :: y :: items)))
      with (f x ++ sep ++ join sep (map f (y :: items)))%string.
    rewrite Hc. cbn. eauto.
Qed.

Lemma parse_encode indent v : reads_back indent v.
Proof.
  induction v as [|b|n|s|items IH|entries IH] using value_ind;
    intros level fuel rest Hfuel Hrest;
    (destruct fuel as [|fuel]; [cbn in Hfuel; lia|]).
  - reflexivity.
  - destruct b; reflexivity.
  - cbn [encode]. destruct (encode_int_head n) as (c & t & Hc & Hhead).
    pose proof (parse_number_encode n rest Hrest) as Hnum.
    rewrite Hc in *. cbn [append] in *.
    now rewrite (parse_value_int c _ fuel Hhead), Hnum.
  - cbn [encode]. unfold encode_string. cbn [append].
    rewrite parse_value_str, append_assoc. cbn [str1 append].
    now rewrite decode_escape.
  - destruct items as [|x items]; [reflexivity|].
    cbn [encode]. cbn [append]. rewrite !append_assoc.
    rewrite parse_value_list, skip_ws_newline_indent.
    cbn [append].
    pose proof (parse_elements_join indent level (x :: items) IH fuel rest
                  ltac:(discriminate)) as Hel.
    destruct (elements_head indent (S level) x items
                (newline_indent indent level ++ String "]" rest))
      as (c & t & Hc & Hhead).
    rewrite Hc in *.
    apply value_head_facts in Hhead as (Hws & Hclose & _).
    cbn [skip_ws]. rewrite Hws, Hclose.
    rewrite Hel; [reflexivity|]. cbn [cost] in Hfuel. lia.
  - destruct entries as [|[k x] entries]; [reflexivity|].
    cbn [encode]. cbn [append]. rewrite !append_assoc.
    rewrite parse_value_dict, skip_ws_newline_indent.
    cbn [append].
    pose proof (parse_members_join indent level ((k, x) :: entries) IH fuel rest
                  ltac:(discriminate)) as Hel.
    assert (Hc : exists t,
               (join (item_separator indent ++ newline_indent indent (S level))
                  (map (fun kv => encode_string (fst kv) ++ key_separator
                                  ++ encode indent (S level) (snd kv))%string
                     ((k, x) :: entries))
                ++ newline_indent indent level ++ String "}" rest)%string
               = String dquote t).
    { destruct entries as [|kv entries]; eexists; reflexivity. }
    destruct Hc as [t Hc]. rewrite Hc in *.
    cbn [skip_ws is_ws Ascii.eqb Bool.eqb orb dquote].
    rewrite Hel; [reflexivity|]. cbn [cost] in Hfuel. lia.
Qed.

(** ** The text is long enough to pay for its reading *)

Lemma join_length {A : Type} (c : A -> nat) (f : A -> string) sep (l : list A) :
  Forall (fun a => c a <= String.length (f a)) l ->
  l <> [] ->
  1 <= String.length sep ->
  list_sum (map (fun a => S (c a)) l) <= S (String.length (join sep (map f l))).
Proof.
  intros Hl Hne Hsep. induction Hl as [|a l Ha Hl IH]; [congruence|].
  change (S (c a) + list_sum (map (fun a => S (c a)) l)
          <= S (String.length (join sep (map f (a :: l))))).
  destruct l as [|b l].
  - cbn. lia.
  - change (join sep (map f (a :: b :: l)))
      with (f a ++ sep ++ join sep (map f (b :: l)))%string.
    rewrite !length_append.
    specialize (IH ltac:(discriminate)). lia.
Qed.

Lemma separator_length indent level :
  1 <= String.length (item_separator indent ++ newline_indent indent level).
Proof. rewrite length_append. destruct indent; cbn; lia. Qed.

Lemma cost_le_length indent v :
  forall level, cost v <= String.length (encode indent level v).
Proof.
  induction v as [|b|n|s|items IH|entries IH] using value_ind; intros level.
  - cbn. lia.
  - destruct b; cbn; lia.
  - cbn [encode cost]. destruct (encode_int_head n) as (c & t & -> & _). cbn. lia.
  - cbn. lia.
  - destruct items as [|x items]; [cbn; lia|].
    cbn [encode cost]. cbn [append String.length]. rewrite !length_append.
    pose proof (join_length cost (encode indent (S level))
                  (item_separator indent ++ newline_indent indent (S level))
                  (x :: items)) as H.
    assert (Hall : Forall (fun a => cost a <= String.length (encode indent (S level) a))
                     (x :: items)).
    { eapply Forall_impl; [|exact IH]. intros a Ha. apply Ha. }
    specialize (H Hall ltac:(discriminate) (separator_length indent (S level))).
    cbn [String.length]. lia.
  - destruct entries as [|kv entries]; [cbn; lia|].
    cbn [encode cost]. cbn [append String.length]. rewrite !length_append.
    pose proof (join_length (fun kv => cost (snd kv))
                  (fun kv => encode_string (fst kv) ++ key_separator
                             ++ encode indent (S level) (snd kv))%string
                  (item_separator indent ++ newline_indent indent (S level))
                  (kv :: entries)) as H.
    assert (Hall : Forall (fun a => cost (snd a)
                                    <= String.length
                                         (encode_string (fst a) ++ key_separator
                                          ++ encode indent (S level) (snd a))%string)
                     (kv :: entries)).
    { eapply Forall_impl; [|exact IH]. intros a Ha. cbn beta in Ha.
      rewrite !length_append. specialize (Ha (S level)). lia. }
    specialize (H Hall ltac:(discriminate) (separator_length indent (S level))).
    cbn [String.length]. lia.
Qed.

Theorem json_loads_dumps indent v : json_loads (json_dumps indent v) = Some v.
Proof.
  unfold json_loads, json_dumps.
  rewrite <- (append_nil_r (encode indent 0 v)) at 2.
  rewrite skip_ws_encode.
  rewrite (parse_encode indent v 0 _ EmptyString (cost_le_length indent v 0) eq_refl).
  reflexivity.
Qed.

(** The content of a file and its text agree: what [json.load] returns
    for a file that [json.dump] wrote is what the reader makes of its
    text. *)
Lemma json_load_reads_text indent data :
  json_load (Json indent data) = Ok data
  /\ json_loads (json_dumps indent data) = Some data.
Proof. split; [reflexivity|apply json_loads_dumps]. Qed.

(** ** What save writes *)




(** * Further properties of the store and of the routes *)

(** ** Searching *)

Lemma py_eq_str a s : py_eq a (VStr s) = true <-> a = VStr s.
Proof.
  destruct a; cbn; try (split; [discriminate|discriminate]).
  rewrite String.eqb_eq. split; [now intros ->|now intros [= ->]].
Qed.

Lemma first_with_id_none l x :
  Forall (fun e => has_id e = true) l ->
  none_with_id l x = true ->
  App.EmployeeManagementSystem.first_with_id l x = Ok None.
Proof.
  intros Hl. induction Hl as [|e l He _ IH]; [reflexivity|].
  unfold none_with_id. cbn [forallb App.EmployeeManagementSystem.first_with_id].
  unfold has_id in He. unfold id_equals at 1.
  destruct (py_getitem e "id") as [a|]; [|discriminate]. cbn [bind].
  intros H. apply andb_prop in H as [H1 H2]. apply negb_true_iff in H1.
  rewrite H1. now apply IH.
Qed.

Lemma first_with_id_first pre e post x :
  Forall (fun e => has_id e = true) pre ->
  none_with_id pre x = true ->
  id_equals e x = true ->
  App.EmployeeManagementSystem.first_with_id (pre ++ e :: post) x = Ok (Some e).
Proof.
  intros Hpre. induction Hpre as [|e0 pre He _ IH]; intros Hnone He1.
  - cbn. unfold id_equals in He1.
    destruct (py_getitem e "id") as [a|]; [|discriminate]. cbn. now rewrite He1.
  - unfold none_with_id in Hnone. cbn [forallb] in Hnone.
    apply andb_prop in Hnone as [H1 H2]. apply negb_true_iff in H1.
    cbn [app App.EmployeeManagementSystem.first_with_id].
    unfold has_id in He. unfold id_equals in H1.
    destruct (py_getitem e0 "id") as [a|]; [|discriminate]. cbn [bind].
    rewrite H1. now apply IH.
Qed.

Lemma first_with_id_sound l x e :
  App.EmployeeManagementSystem.first_with_id l x = Ok (Some e) ->
  In e l /\ id_equals e x = true.
Proof.
  induction l as [|e0 l IH]; [discriminate|].
  cbn [App.EmployeeManagementSystem.first_with_id].
  destruct (py_getitem e0 "id") as [a|] eqn:Ha; cbn [bind]; [|discriminate].
  destruct (py_eq a x) eqn:Heq.
  - intros [= <-]. split; [now left|]. unfold id_equals. now rewrite Ha.
  - intros H. destruct (IH H) as [Hin He]. split; [now right|exact He].
Qed.

(** X8.  On a store of records the search returns the first record, in
    file order, whose id equals the one looked for, whatever comes after
    it; it returns [None] when no record has that id; and what it returns
    is always a record of the listing with that id.  Both classes. *)
Theorem search_returns_first_match :
  forall path (d : disk) (l : list value) (x : value),
    holds d path l ->
    (Forall (fun e => has_id e = true) l ->
     none_with_id l x = true ->
     App.EmployeeManagementSystem.search_employee (app_sys path) x d = (Ok None, d)
     /\ Cli.EmployeeManagementSystem.search_employee (cli_sys path) x d = (Ok None, d))
    /\ (forall pre e post,
          l = pre ++ e :: post ->
          Forall (fun e => has_id e = true) pre ->
          none_with_id pre x = true ->
          id_equals e x = true ->
          App.EmployeeManagementSystem.search_employee (app_sys path) x d = (Ok (Some e), d)
          /\ Cli.EmployeeManagementSystem.search_employee (cli_sys path) x d
             = (Ok (Some e), d))
    /\ (forall e,
          fst (App.EmployeeManagementSystem.search_employee (app_sys path) x d) = Ok (Some e)
          \/ fst (Cli.EmployeeManagementSystem.search_employee (cli_sys path) x d)
             = Ok (Some e) ->
          In e l /\ id_equals e x = true).
Proof.
  intros path d l x Hl. apply holds_iff in Hl.
  rewrite cli_search_employee, search_eq, Hl. cbn [bind py_iter].
  split; [|split].
  - intros Hrec Hnone. now rewrite (first_with_id_none l x Hrec Hnone).
  - intros pre e post -> Hpre Hnone He.
    now rewrite (first_with_id_first pre e post x Hpre Hnone He).
  - intros e [H|H]; cbn [fst] in H; now apply first_with_id_sound.
Qed.

Lemma search_returns_first_match_witness :
  App.EmployeeManagementSystem.search_employee (app_sys employees_json) (VStr "E1")
    (file_with (Json None (VList [bob; alice; alice_again])))
  = (Ok (Some alice), file_with (Json None (VList [bob; alice; alice_again])))
  /\ App.EmployeeManagementSystem.search_employee (app_sys employees_json) (VStr "E9")
       (file_with (Json None (VList [bob; alice])))
     = (Ok None, file_with (Json None (VList [bob; alice]))).
Proof.
  split.
  - destruct (search_returns_first_match employees_json
                (file_with (Json None (VList [bob; alice; alice_again])))
                [bob; alice; alice_again] (VStr "E1")) as (_ & H & _); [reflexivity|].
    apply (H [bob] alice [alice_again]);
      [reflexivity|repeat constructor|reflexivity|reflexivity].
  - destruct (search_returns_first_match employees_json
                (file_with (Json None (VList [bob; alice])))
                [bob; alice] (VStr "E9")) as (H & _); [reflexivity|].
    apply H; [repeat constructor|reflexivity].
Defined.

(** ** The routes that read *)

Lemma has_id_truthy e : has_id e = true -> truthy e = true.
Proof.
  unfold has_id. destruct e as [| | | | |[|kv entries]]; cbn; try discriminate.
  reflexivity.
Qed.

Lemma id_equals_has_id e x : id_equals e x = true -> has_id e = true.
Proof.
  unfold id_equals, has_id. now destruct (py_getitem e "id").
Qed.

Lemma route_get_eq s (d : disk) :
  App.get_employee s d =
  match fst (App.EmployeeManagementSystem.search_employee (app_sys App.DATA_FILE) (VStr s) d)
  with
  | Ok (Some e) => if truthy e then (Ok (e, 200%Z), d) else (Ok not_found, d)
  | Ok None => (Ok not_found, d)
  | Raise e => (Raise e, d)
  end.
Proof.
  unfold App.get_employee, bindM. change App.system with (app_sys App.DATA_FILE).
  rewrite search_eq. cbn [fst].
  destruct (all <- load_outcome (d App.DATA_FILE);;
            employees <- py_iter all;;
            App.EmployeeManagementSystem.first_with_id employees (VStr s))
    as [[e|]|e]; try reflexivity.
  destruct (truthy e); reflexivity.
Qed.

Lemma route_list_eq (d : disk) :
  App.get_employees d =
  match load_outcome (d App.DATA_FILE) with
  | Ok employees => (Ok (employees, 200%Z), d)
  | Raise e => (Raise e, d)
  end.
Proof.
  unfold App.get_employees, bindM, App.EmployeeManagementSystem.view_all_employees.
  change App.system with (app_sys App.DATA_FILE). rewrite load_data_eq.
  now destruct (load_outcome (d App.DATA_FILE)).
Qed.

(** X1.  GET /api/employees/<id> answers 200 with the first record whose
    id is the string of the URL, and 404 with the error "Employee not
    found" when no record of the store has it; the disk is left as it
    was. *)
Theorem get_employee_answers :
  forall (s : string) (d : disk) (l : list value),
    holds d App.DATA_FILE l ->
    (forall pre e post,
        l = pre ++ e :: post ->
        Forall (fun e => has_id e = true) pre ->
        none_with_id pre (VStr s) = true ->
        py_getitem e "id" = Ok (VStr s) ->
        App.get_employee s d = (Ok (e, 200%Z), d))
    /\ (Forall (fun e => has_id e = true) l ->
        none_with_id l (VStr s) = true ->
        App.get_employee s d = (Ok not_found, d)).
Proof.
  intros s d l Hl. apply holds_iff in Hl. rewrite route_get_eq, search_eq, Hl.
  cbn [bind py_iter fst]. split.
  - intros pre e post -> Hpre Hnone He.
    assert (Hid : id_equals e (VStr s) = true).
    { unfold id_equals. rewrite He. now apply py_eq_str. }
    rewrite (first_with_id_first pre e post (VStr s) Hpre Hnone Hid).
    now rewrite (has_id_truthy e (id_equals_has_id e _ Hid)).
  - intros Hrec Hnone. now rewrite (first_with_id_none l (VStr s) Hrec Hnone).
Qed.

Lemma get_employee_answers_witness :
  App.get_employee "E1" (file_with (Json None (VList [bob; alice])))
  = (Ok (alice, 200%Z), file_with (Json None (VList [bob; alice])))
  /\ App.get_employee "E7" (file_with (Json None (VList [bob; alice])))
     = (Ok not_found, file_with (Json None (VList [bob; alice]))).
Proof.
  split.
  - destruct (get_employee_answers "E1" (file_with (Json None (VList [bob; alice])))
                [bob; alice]) as [H _]; [reflexivity|].
    apply (H [bob] alice []); [reflexivity|repeat constructor|reflexivity|reflexivity].
  - destruct (get_employee_answers "E7" (file_with (Json None (VList [bob; alice])))
                [bob; alice]) as [_ H]; [reflexivity|].
    apply H; [repeat constructor|reflexivity].
Defined.

(** ** What a POST can do *)

Lemma first_missing_not_object body f fields :
  (forall b, body <> VDict b) ->
  App.first_missing (f :: fields) body <> Ok None.
Proof.
  intros Hbody. cbn [App.first_missing].
  destruct body as [| | |s|items|b]; cbn; try discriminate.
  - destruct (is_substring f s); cbn; discriminate.
  - destruct (existsb (fun x => py_eq x (VStr f)) items); cbn; discriminate.
  - now destruct (Hbody b).
Qed.

(** Either the request is not answered 201 and the disk is as it was, or
    the body is an object with its four fields that the store did not
    have, and it is the last record now. *)
Lemma route_add_cases body (d : disk) :
  (created (fst (App.add_employee body d)) = false
   /\ snd (App.add_employee body d) = d)
  \/ (exists b l,
        body = VDict b
        /\ valid_body b = true
        /\ load_outcome (d App.DATA_FILE) = Ok (VList l)
        /\ App.EmployeeManagementSystem.id_exists l body = Ok false
        /\ writable d App.DATA_FILE = true
        /\ App.add_employee body d
           = (Ok (VDict [("message", VStr "Employee added successfully")]%string, 201%Z),
              update d App.DATA_FILE
                (written (d App.DATA_FILE) (Json (Some 4%nat) (VList (l ++ [body])))))).
Proof.
  destruct body as [| | |s|items|b].
  1-5: left; unfold App.add_employee, bindM, lift;
       match goal with
       | |- context [App.first_missing ?fs ?v] =>
           pose proof (first_missing_not_object v "id"
                         ["name"; "department"; "salary"]%string
                         ltac:(discriminate)) as H;
           change ("id" :: ["name"; "department"; "salary"])%string
             with App.required_fields in H;
           destruct (App.first_missing App.required_fields v) as [[field|]|e]
       end; [now split|congruence|now split].
  rewrite route_add_eq.
  destruct (find (fun f => negb (field_ok b f)) App.required_fields) eqn:Hfind;
    [left; now split|].
  apply find_none_forallb in Hfind.
  rewrite app_add_eq.
  destruct (load_outcome (d App.DATA_FILE)) as [all|e] eqn:Hload; [|left; now split].
  destruct (py_iter all) as [employees|e] eqn:Hiter; [|left; now split].
  destruct (App.EmployeeManagementSystem.id_exists employees (VDict b)) as [[|]|e] eqn:Hscan;
    [left; now split| |left; now split].
  destruct (py_append all (VDict b)) as [all'|e] eqn:Happ; [|left; now split].
  destruct (py_iter_append _ _ _ _ Hiter Happ) as [-> ->].
  destruct (writable d App.DATA_FILE) eqn:Hw; [|left; now split].
  right. exists b, employees. repeat split; assumption.
Qed.

(** X4.  A POST that is answered neither 201 nor with the 400 of a failed
    save did not reach the save and leaves the disk as it was, whatever
    the body (an object, a list, a string, a number, null).  A POST
    answered 201 was given a JSON object with the four required fields
    truthy and an id the store did not have, and that body is the last
    record afterwards. *)
Theorem post_writes_only_on_201 :
  forall (body : value) (d : disk),
    (created (fst (App.add_employee body d)) = false ->
     save_failed (fst (App.add_employee body d)) = false ->
     snd (App.add_employee body d) = d)
    /\ (created (fst (App.add_employee body d)) = true ->
        exists b l,
          body = VDict b
          /\ valid_body b = true
          /\ holds d App.DATA_FILE l
          /\ id_occurs l body = false
          /\ holds (snd (App.add_employee body d)) App.DATA_FILE (l ++ [body])).
Proof.
  intros body d.
  destruct (route_add_cases body d)
    as [[Hno Hsame]|(b & l & -> & Hvalid & Hload & Hscan & Hw & Heq)].
  - split; [intros _ _; exact Hsame|]. rewrite Hno. discriminate.
  - rewrite Heq. cbn [fst snd created]. split; [discriminate|].
    intros _. exists b, l. repeat split; try assumption.
    + now apply holds_iff.
    + now apply id_exists_false.
    + now apply holds_after_write with (all := VList l).
Qed.

Lemma post_writes_only_on_201_witness :
  snd (App.add_employee (VList [VStr "id"]) (file_with (Json None (VList [bob]))))
  = file_with (Json None (VList [bob]))
  /\ exists b l,
       alice = VDict b
       /\ valid_body b = true
       /\ holds (file_with (Json None (VList [bob]))) App.DATA_FILE l
       /\ id_occurs l alice = false
       /\ holds (snd (App.add_employee alice (file_with (Json None (VList [bob])))))
            App.DATA_FILE (l ++ [alice]).
Proof.
  split.
  - apply (post_writes_only_on_201 (VList [VStr "id"])
             (file_with (Json None (VList [bob])))); reflexivity.
  - apply (post_writes_only_on_201 alice (file_with (Json None (VList [bob])))).
    reflexivity.
Defined.

(** ** Posting, then getting *)

Lemma first_with_id_app_miss l r x :
  has_id r = true ->
  id_equals r x = false ->
  App.EmployeeManagementSystem.first_with_id (l ++ [r]) x
  = App.EmployeeManagementSystem.first_with_id l x.
Proof.
  intros Hr Hx. induction l as [|e l IH].
  - cbn. unfold has_id in Hr. unfold id_equals in Hx.
    destruct (py_getitem r "id") as [a|]; [|discriminate]. cbn. now rewrite Hx.
  - cbn [app App.EmployeeManagementSystem.first_with_id].
    destruct (py_getitem e "id") as [a|]; cbn [bind]; [|reflexivity].
    destruct (py_eq a x); [reflexivity|exact IH].
Qed.

(** X3.  After a POST of an object whose id is the string [s] was
    answered 201, GET /api/employees/[s] answers 200 with that object,
    for every [s] the rule of the route delivers (not empty, no slash),
    and GET /api/employees answers 200 with the former records followed
    by it. *)
Theorem post_then_get :
  forall (b : list (string * value)) (s : string) (d d' : disk) (answer : value),
    dict_get "id" b = Some (VStr s) ->
    App.routable s = true ->
    App.add_employee (VDict b) d = (Ok (answer, 201%Z), d') ->
    App.get_employee s d' = (Ok (VDict b, 200%Z), d')
    /\ (forall l,
          holds d App.DATA_FILE l ->
          App.get_employees d' = (Ok (VList (l ++ [VDict b]), 200%Z), d')).
Proof.
  intros b s d d' answer Hid _ Hpost.
  destruct (route_add_cases (VDict b) d)
    as [[Hno _]|(b0 & l0 & Hb & Hvalid & Hload & Hscan & Hw & Heq)].
  { rewrite Hpost in Hno. discriminate Hno. }
  injection Hb as <-. rewrite Hpost in Heq. injection Heq as _ ->.
  split.
  - rewrite route_get_eq, search_eq, update_same.
    rewrite (load_outcome_written d App.DATA_FILE (VList l0) _ Hload).
    cbn [bind py_iter fst].
    assert (Hget : py_getitem (VDict b) "id" = Ok (VStr s)) by (cbn; now rewrite Hid).
    rewrite (first_with_id_app l0 (VDict b) (VStr s) Hscan Hget []).
    now rewrite (has_id_truthy _ (valid_body_has_id b Hvalid)).
  - intros l Hl. apply holds_iff in Hl. rewrite Hload in Hl. injection Hl as <-.
    rewrite route_list_eq, update_same.
    now rewrite (load_outcome_written d App.DATA_FILE (VList l0) _ Hload).
Qed.

Lemma post_then_get_witness :
  App.get_employee "E1" (snd (App.add_employee alice (file_with (Json None (VList [bob])))))
  = (Ok (alice, 200%Z), snd (App.add_employee alice (file_with (Json None (VList [bob])))))
  /\ App.get_employees (snd (App.add_employee alice (file_with (Json None (VList [bob])))))
     = (Ok (VList ([bob] ++ [alice]), 200%Z),
        snd (App.add_employee alice (file_with (Json None (VList [bob]))))).
Proof.
  destruct (post_then_get alice_entries "E1" (file_with (Json None (VList [bob])))
              (snd (App.add_employee alice (file_with (Json None (VList [bob])))))
              (VDict [("message", VStr "Employee added successfully")]%string))
    as [Hget Hlist]; [reflexivity|reflexivity|reflexivity|].
  split; [exact Hget|]. apply Hlist. reflexivity.
Defined.

(** X2.  The POST route accepts any truthy id, also one that is not a
    string.  GET /api/employees/<id> compares with the string of the URL,
    so a record stored with such an id changes no answer of that route:
    it cannot be fetched by id. *)
Theorem non_string_id_hidden_from_get :
  forall (b : list (string * value)) (d : disk),
    (forall s, dict_get "id" b <> Some (VStr s)) ->
    created (fst (App.add_employee (VDict b) d)) = true ->
    forall s,
      fst (App.get_employee s (snd (App.add_employee (VDict b) d)))
      = fst (App.get_employee s d).
Proof.
  intros b d Hid Hcreated s.
  destruct (route_add_cases (VDict b) d)
    as [[Hno _]|(b' & l & [= <-] & Hvalid & Hload & Hscan & Hw & Heq)];
    [congruence|].
  rewrite Heq. cbn [snd]. rewrite !route_get_eq, !search_eq, update_same.
  rewrite (load_outcome_written d App.DATA_FILE (VList l) _ Hload), Hload.
  cbn [bind py_iter fst].
  rewrite first_with_id_app_miss; [|now apply valid_body_has_id|].
  - destruct (App.EmployeeManagementSystem.first_with_id l (VStr s)) as [[e|]|e];
      try reflexivity.
    destruct (truthy e); reflexivity.
  - unfold id_equals. cbn [py_getitem].
    destruct (dict_get "id" b) as [a|] eqn:Ha; [|reflexivity].
    destruct (py_eq a (VStr s)) eqn:Heqs; [|reflexivity].
    apply py_eq_str in Heqs. subst. now destruct (Hid s).
Qed.

Lemma non_string_id_hidden_from_get_witness :
  created (fst (App.add_employee (VDict numbered_entries)
                  (file_with (Json None (VList [bob]))))) = true
  /\ fst (App.get_employee "7"
            (snd (App.add_employee (VDict numbered_entries)
                    (file_with (Json None (VList [bob]))))))
     = fst (App.get_employee "7" (file_with (Json None (VList [bob])))).
Proof.
  split; [reflexivity|].
  apply (non_string_id_hidden_from_get numbered_entries
           (file_with (Json None (VList [bob])))); [|reflexivity].
  intros s. cbn. discriminate.
Defined.

(** ** A run of POST requests *)

Lemma post_step body (d : disk) i l :
  d App.DATA_FILE = Regular true true (Json i (VList l)) ->
  Forall (fun e => has_id e = true) l ->
  unique_ids l = true ->
  let r := fst (App.add_employee body d) in
  let d' := snd (App.add_employee body d) in
  let l' := if created r then l ++ [body] else l in
  (exists i', d' App.DATA_FILE = Regular true true (Json i' (VList l')))
  /\ Forall (fun e => has_id e = true) l'
  /\ unique_ids l' = true
  /\ (created r = true -> record_ok body = true)
  /\ (is_object body = true -> answered r = true).
Proof.
  intros Hnode Hrec Huniq r d' l'. subst r d' l'.
  assert (Hload : load_outcome (d App.DATA_FILE) = Ok (VList l))
    by (now rewrite Hnode).
  destruct (route_add_cases body d)
    as [[Hno Hsame]|(b & l0 & -> & Hvalid & Hload0 & Hscan & Hw & Heq)].
  - rewrite Hno, Hsame. repeat split; try assumption; try discriminate.
    + now exists i.
    + intros Hobj. destruct body as [| | | | |b]; try discriminate Hobj.
      clear Hno Hsame. rewrite route_add_eq.
      destruct (find (fun f => negb (field_ok b f)) App.required_fields) eqn:Hfind;
        [reflexivity|].
      apply find_none_forallb in Hfind.
      rewrite app_add_eq, Hload. cbn [py_iter py_append].
      rewrite (id_exists_records l (VDict b) Hrec (valid_body_has_id b Hfind)).
      destruct (id_occurs l (VDict b)); [reflexivity|].
      unfold writable. rewrite Hnode. reflexivity.
  - rewrite Heq. cbn [fst snd created Z.eqb Pos.eqb].
    rewrite Hload in Hload0. injection Hload0 as <-.
    repeat split.
    + exists (Some 4%nat). rewrite update_same, Hnode. reflexivity.
    + apply Forall_app. split; [exact Hrec|].
      constructor; [now apply valid_body_has_id|constructor].
    + rewrite unique_ids_app, Huniq. now rewrite (id_exists_false _ _ Hscan).
    + intros _. exact Hvalid.
Qed.

Lemma post_all_spec bodies :
  forall (d : disk) i l,
    d App.DATA_FILE = Regular true true (Json i (VList l)) ->
    Forall (fun e => has_id e = true) l ->
    unique_ids l = true ->
    holds (snd (post_all bodies d)) App.DATA_FILE
      (l ++ accepted bodies (fst (post_all bodies d)))
    /\ unique_ids (l ++ accepted bodies (fst (post_all bodies d))) = true
    /\ Forall (fun e => record_ok e = true) (accepted bodies (fst (post_all bodies d)))
    /\ List.length (fst (post_all bodies d)) = List.length bodies
    /\ (Forall (fun body => is_object body = true) bodies ->
        Forall (fun r => answered r = true) (fst (post_all bodies d))).
Proof.
  induction bodies as [|body bodies IH]; intros d i l Hnode Hrec Huniq.
  - cbn. rewrite List.app_nil_r. repeat split; try assumption; try constructor.
    apply holds_iff. now rewrite Hnode.
  - cbn [post_all].
    destruct (post_step body d i l Hnode Hrec Huniq)
      as ((i' & Hnode') & Hrec' & Huniq' & Hok & Hans).
    destruct (App.add_employee body d) as [r d1] eqn:Hpost. cbn [fst snd] in *.
    specialize (IH d1 i' _ Hnode' Hrec' Huniq').
    destruct (post_all bodies d1) as [rs d2] eqn:Hrest. cbn [fst snd] in *.
    destruct IH as (Hholds & Hu & Hacc & Hlen & Hall).
    cbn [accepted List.length].
    destruct (created r) eqn:Hc.
    + rewrite <- List.app_assoc in Hholds, Hu. cbn [app] in Hholds, Hu.
      repeat split; try assumption.
      * constructor; [now apply Hok|exact Hacc].
      * now rewrite Hlen.
      * intros Hobj. inversion Hobj; subst.
        constructor; [now apply Hans|now apply Hall].
    + repeat split; try assumption.
      * now rewrite Hlen.
      * intros Hobj. inversion Hobj; subst.
        constructor; [now apply Hans|now apply Hall].
Qed.

(** X5.  From a readable and writable store of records with unique ids
    (such as the one initialisation creates), after any run of POST
    requests none of which is answered with the 400 of a failed save: the
    listing is the former records followed by exactly the bodies answered
    201, in the order of the requests; the ids are still unique; every
    stored body is an object with the four required fields truthy; there
    is one answer per request; and when every body is a JSON object no
    request raises, each is answered 201 or 400. *)
Theorem posts_keep_store_well_formed :
  forall (bodies : list value) (d : disk) i l,
    d App.DATA_FILE = Regular true true (Json i (VList l)) ->
    Forall (fun e => has_id e = true) l ->
    unique_ids l = true ->
    Forall (fun r => save_failed r = false) (fst (post_all bodies d)) ->
    App.get_employees (snd (post_all bodies d))
    = (Ok (VList (l ++ accepted bodies (fst (post_all bodies d))), 200%Z),
       snd (post_all bodies d))
    /\ unique_ids (l ++ accepted bodies (fst (post_all bodies d))) = true
    /\ Forall (fun e => record_ok e = true) (accepted bodies (fst (post_all bodies d)))
    /\ List.length (fst (post_all bodies d)) = List.length bodies
    /\ (Forall (fun body => is_object body = true) bodies ->
        Forall (fun r => answered r = true) (fst (post_all bodies d))).
Proof.
  intros bodies d i l Hnode Hrec Huniq _.
  destruct (post_all_spec bodies d i l Hnode Hrec Huniq) as (Hholds & Hrest).
  split; [|exact Hrest].
  rewrite route_list_eq. apply holds_iff in Hholds. now rewrite Hholds.
Qed.

Lemma posts_keep_store_well_formed_witness :
  let d := snd (App.startup no_file) in
  let run := post_all [alice; VDict no_salary; bob; alice_again; VNone] d in
  App.get_employees (snd run) = (Ok (VList [alice; bob], 200%Z), snd run)
  /\ List.length (fst run) = 5.
Proof.
  intros d run.
  destruct (posts_keep_store_well_formed
              [alice; VDict no_salary; bob; alice_again; VNone] d None [])
    as (H & _ & _ & Hlen & _);
    [reflexivity|constructor|reflexivity|repeat constructor|].
  split; [exact H|exact Hlen].
Defined.

(** ** What a failed add leaves *)

Lemma add_disk_cases path r (d : disk) :
  (fst (App.EmployeeManagementSystem.add_employee (app_sys path) r d)
   <> Ok (RTuple true "Employee added successfully")
   /\ fst (Cli.EmployeeManagementSystem.add_employee (cli_sys path) r d) <> Ok (RBool true)
   /\ snd (App.EmployeeManagementSystem.add_employee (app_sys path) r d) = d
   /\ snd (Cli.EmployeeManagementSystem.add_employee (cli_sys path) r d) = d)
  \/ (exists n,
        fst (App.EmployeeManagementSystem.add_employee (app_sys path) r d)
        = Ok (RTuple true "Employee added successfully")
        /\ fst (Cli.EmployeeManagementSystem.add_employee (cli_sys path) r d)
           = Ok (RBool true)
        /\ snd (App.EmployeeManagementSystem.add_employee (app_sys path) r d)
           = update d path n
        /\ snd (Cli.EmployeeManagementSystem.add_employee (cli_sys path) r d)
           = update d path n).
Proof.
  rewrite app_add_eq, cli_add_eq.
  destruct (load_outcome (d path)) as [all|e];
    [|left; repeat split; discriminate].
  destruct (py_iter all) as [employees|e];
    [|left; repeat split; discriminate].
  destruct (App.EmployeeManagementSystem.id_exists employees r) as [[|]|e];
    [left; repeat split; discriminate| |left; repeat split; discriminate].
  destruct (py_append all r) as [all'|e];
    [|left; repeat split; discriminate].
  destruct (writable d path);
    [|left; repeat split; discriminate].
  right. eexists. repeat split.
Qed.

(** X6.  An add that stops before the save has not written: when it
    raises, or rejects a duplicate, the disk is as it was; and so it is
    when the file cannot be opened for the save.  Both classes. *)
Theorem failed_add_leaves_disk :
  forall path (r : value) (d : disk),
    (forall e,
       fst (App.EmployeeManagementSystem.add_employee (app_sys path) r d) = Raise e ->
       snd (App.EmployeeManagementSystem.add_employee (app_sys path) r d) = d)
    /\ (fst (App.EmployeeManagementSystem.add_employee (app_sys path) r d)
        = Ok (RTuple false "Employee ID already exists") ->
        snd (App.EmployeeManagementSystem.add_employee (app_sys path) r d) = d)
    /\ (forall e,
          fst (Cli.EmployeeManagementSystem.add_employee (cli_sys path) r d) = Raise e ->
          snd (Cli.EmployeeManagementSystem.add_employee (cli_sys path) r d) = d)
    /\ (writable d path = false ->
        snd (App.EmployeeManagementSystem.add_employee (app_sys path) r d) = d
        /\ snd (Cli.EmployeeManagementSystem.add_employee (cli_sys path) r d) = d).
Proof.
  intros path r d.
  destruct (add_disk_cases path r d) as [(_ & _ & Ha & Hc)|(n & Ha & Hc & _)].
  - now repeat split.
  - assert (Hw : writable d path = true).
    { rewrite app_add_eq in Ha.
      destruct (load_outcome (d path)) as [all|e]; [|discriminate].
      destruct (py_iter all) as [employees|e]; [|discriminate].
      destruct (App.EmployeeManagementSystem.id_exists employees r) as [[|]|e];
        try discriminate.
      destruct (py_append all r) as [all'|e]; [|discriminate].
      destruct (writable d path); [reflexivity|discriminate]. }
    rewrite Ha, Hc, Hw. split; [|split; [|split]]; intros; discriminate.
Qed.

Lemma failed_add_leaves_disk_witness :
  snd (App.EmployeeManagementSystem.add_employee (app_sys employees_json) alice
         unreadable_file) = unreadable_file
  /\ snd (App.EmployeeManagementSystem.add_employee (app_sys employees_json) alice_again
            (file_with (Json None (VList [alice]))))
     = file_with (Json None (VList [alice]))
  /\ snd (Cli.EmployeeManagementSystem.add_employee (cli_sys employees_json) alice
            read_only_file) = read_only_file.
Proof.
  split; [|split].
  - destruct (failed_add_leaves_disk employees_json alice unreadable_file) as (H & _).
    apply (H PermissionError). reflexivity.
  - destruct (failed_add_leaves_disk employees_json alice_again
                (file_with (Json None (VList [alice])))) as (_ & H & _).
    apply H. reflexivity.
  - destruct (failed_add_leaves_disk employees_json alice read_only_file)
      as (_ & _ & _ & H).
    destruct H as [_ Hc]; [reflexivity|exact Hc].
Defined.

(** ** Other paths *)

Lemma update_other (d : disk) path n q : q <> path -> update d path n q = d q.
Proof.
  intros H. unfold update. destruct (String.eqb q path) eqn:E; [|reflexivity].
  apply String.eqb_eq in E. contradiction.
Qed.

(** X7.  The store touches its own file only: initialisation, save and
    add, in either class, and the POST route leave every other path as it
    was. *)
Theorem other_paths_untouched :
  forall path q (d : disk) (r data : value),
    q <> path ->
    snd (App.EmployeeManagementSystem.__init__ path d) q = d q
    /\ snd (Cli.EmployeeManagementSystem.__init__ path d) q = d q
    /\ snd (App.EmployeeManagementSystem._save_data (app_sys path) data d) q = d q
    /\ snd (Cli.EmployeeManagementSystem._save_data (cli_sys path) data d) q = d q
    /\ snd (App.EmployeeManagementSystem.add_employee (app_sys path) r d) q = d q
    /\ snd (Cli.EmployeeManagementSystem.add_employee (cli_sys path) r d) q = d q
    /\ (path = App.DATA_FILE -> snd (App.add_employee r d) q = d q).
Proof.
  intros path q d r data Hq.
  rewrite init_eq, cli_init_eq, cli_save_data, save_data_eq.
  repeat split.
  - destruct (d path) as [| |r0 w c|denied]; cbn [snd];
      try reflexivity; now apply update_other.
  - destruct (d path) as [| |r0 w c|denied]; cbn [snd];
      try reflexivity; now apply update_other.
  - destruct (writable d path); cbn [snd]; [now apply update_other|reflexivity].
  - destruct (writable d path); cbn [snd]; [now apply update_other|reflexivity].
  - destruct (add_disk_cases path r d) as [(_ & _ & -> & _)|(n & _ & _ & -> & _)];
      [reflexivity|now apply update_other].
  - destruct (add_disk_cases path r d) as [(_ & _ & _ & ->)|(n & _ & _ & _ & ->)];
      [reflexivity|now apply update_other].
  - intros ->.
    destruct (route_add_cases r d) as [[_ ->]|(b & l & _ & _ & _ & _ & _ & ->)];
      [reflexivity|]. cbn [snd]. now apply update_other.
Qed.

Lemma other_paths_untouched_witness :
  snd (App.EmployeeManagementSystem.add_employee (app_sys employees_json) alice
         (update no_file "other.json"%string Directory)) "other.json"%string = Directory.
Proof.
  destruct (other_paths_untouched employees_json "other.json"%string
              (update no_file "other.json"%string Directory) alice VNone)
    as (_ & _ & _ & _ & H & _); [discriminate|].
  exact H.
Defined.

(** ** A record without an id *)

(** X9.  The store classes do not check that the record they are given
    has an id.  On an empty store the add of a dictionary without an
    ["id"] succeeds; from then on every add and every search raises
    [KeyError], while the listing still works.  On a store that has a
    record already, the same add raises [KeyError] and writes nothing. *)
Theorem record_without_id_blocks_store :
  forall path (d : disk) (b : list (string * value)),
    dict_get "id" b = None ->
    (holds d path [] ->
     writable d path = true ->
     exists d',
       App.EmployeeManagementSystem.add_employee (app_sys path) (VDict b) d
       = (Ok (RTuple true "Employee added successfully"), d')
       /\ Cli.EmployeeManagementSystem.add_employee (cli_sys path) (VDict b) d
          = (Ok (RBool true), d')
       /\ App.EmployeeManagementSystem.view_all_employees (app_sys path) d'
          = (Ok (VList [VDict b]), d')
       /\ (forall r,
             App.EmployeeManagementSystem.add_employee (app_sys path) r d'
             = (Raise KeyError, d')
             /\ Cli.EmployeeManagementSystem.add_employee (cli_sys path) r d'
                = (Raise KeyError, d'))
       /\ (forall x,
             App.EmployeeManagementSystem.search_employee (app_sys path) x d'
             = (Raise KeyError, d')
             /\ Cli.EmployeeManagementSystem.search_employee (cli_sys path) x d'
                = (Raise KeyError, d')))
    /\ (forall e l,
          holds d path (e :: l) ->
          has_id e = true ->
          App.EmployeeManagementSystem.add_employee (app_sys path) (VDict b) d
          = (Raise KeyError, d)
          /\ Cli.EmployeeManagementSystem.add_employee (cli_sys path) (VDict b) d
             = (Raise KeyError, d)).
Proof.
  intros path d b Hid. split.
  - intros Hempty Hw. apply holds_iff in Hempty.
    exists (update d path (written (d path) (Json (Some 4%nat) (VList ([] ++ [VDict b]))))).
    assert (Hafter : load_outcome
                       (update d path
                          (written (d path) (Json (Some 4%nat) (VList ([] ++ [VDict b]))))
                          path)
                     = Ok (VList [VDict b])).
    { rewrite update_same.
      now rewrite (load_outcome_written d path (VList []) _ Hempty). }
    repeat split.
    + rewrite app_add_eq, Hempty. cbn [py_iter py_append
        App.EmployeeManagementSystem.id_exists]. now rewrite Hw.
    + rewrite cli_add_eq, Hempty. cbn [py_iter py_append
        App.EmployeeManagementSystem.id_exists]. now rewrite Hw.
    + unfold App.EmployeeManagementSystem.view_all_employees.
      now rewrite load_data_eq, Hafter.
    + rewrite app_add_eq, Hafter. cbn. now rewrite Hid.
    + rewrite cli_add_eq, Hafter. cbn. now rewrite Hid.
    + rewrite search_eq, Hafter. cbn. now rewrite Hid.
    + rewrite cli_search_employee, search_eq, Hafter. cbn. now rewrite Hid.
  - intros e l Hl He. apply holds_iff in Hl.
    rewrite app_add_eq, cli_add_eq, Hl.
    cbn [py_iter App.EmployeeManagementSystem.id_exists].
    unfold has_id in He. destruct (py_getitem e "id") as [a|]; [|discriminate].
    cbn. rewrite Hid. now split.
Qed.

Lemma record_without_id_blocks_store_witness :
  exists d',
    App.EmployeeManagementSystem.add_employee (app_sys employees_json)
      (VDict [("name", VStr "A")]%string) no_file
    = (Ok (RTuple true "Employee added successfully"), d')
    /\ App.EmployeeManagementSystem.add_employee (app_sys employees_json) alice d'
       = (Raise KeyError, d')
    /\ App.EmployeeManagementSystem.search_employee (app_sys employees_json) (VStr "E1") d'
       = (Raise KeyError, d').
Proof.
  destruct (record_without_id_blocks_store employees_json no_file
              [("name", VStr "A")]%string) as [H _]; [reflexivity|].
  destruct H as (d' & Ha & _ & _ & Hadd & Hsearch); [reflexivity|reflexivity|].
  exists d'. split; [exact Ha|]. split; [apply Hadd|apply Hsearch].
Defined.

(** ** A file that is JSON but not a list *)

(** X10.  When the file holds JSON that is not a list (an object, a
    string, a number, a boolean, null), the listing returns it as it is,
    every add raises [TypeError] or [AttributeError] and leaves the disk
    as it was, and a search raises [TypeError] or finds nothing. *)
Theorem non_list_file_never_served :
  forall path (d : disk) (v : value),
    fst (App.EmployeeManagementSystem.view_all_employees (app_sys path) d) = Ok v ->
    (forall l, v <> VList l) ->
    forall r x,
      (App.EmployeeManagementSystem.add_employee (app_sys path) r d = (Raise TypeError, d)
       /\ Cli.EmployeeManagementSystem.add_employee (cli_sys path) r d
          = (Raise TypeError, d)
       \/ App.EmployeeManagementSystem.add_employee (app_sys path) r d
          = (Raise AttributeError, d)
          /\ Cli.EmployeeManagementSystem.add_employee (cli_sys path) r d
             = (Raise AttributeError, d))
      /\ (App.EmployeeManagementSystem.search_employee (app_sys path) x d
          = (Raise TypeError, d)
          \/ App.EmployeeManagementSystem.search_employee (app_sys path) x d
             = (Ok None, d)).
Proof.
  intros path d v Hv Hnot r x.
  unfold App.EmployeeManagementSystem.view_all_employees in Hv.
  rewrite load_data_eq in Hv. cbn [fst] in Hv.
  rewrite app_add_eq, cli_add_eq, search_eq, Hv.
  destruct v as [| | |s|items|entries].
  - split; left; [split|]; reflexivity.
  - split; left; [split|]; reflexivity.
  - split; left; [split|]; reflexivity.
  - destruct s as [|c s].
    + split; right; [split|]; reflexivity.
    + split; left; [split|]; reflexivity.
  - now destruct (Hnot items).
  - destruct entries as [|[k y] entries].
    + split; right; [split|]; reflexivity.
    + split; left; [split|]; reflexivity.
Qed.

Lemma non_list_file_never_served_witness :
  (App.EmployeeManagementSystem.add_employee (app_sys employees_json) alice
     (file_with (Json None alice)) = (Raise TypeError, file_with (Json None alice))
   /\ Cli.EmployeeManagementSystem.add_employee (cli_sys employees_json) alice
        (file_with (Json None alice)) = (Raise TypeError, file_with (Json None alice))
   \/ App.EmployeeManagementSystem.add_employee (app_sys employees_json) alice
        (file_with (Json None alice)) = (Raise AttributeError, file_with (Json None alice))
      /\ Cli.EmployeeManagementSystem.add_employee (cli_sys employees_json) alice
           (file_with (Json None alice))
         = (Raise AttributeError, file_with (Json None alice)))
  /\ (App.EmployeeManagementSystem.search_employee (app_sys employees_json) (VStr "E1")
        (file_with (Json None alice)) = (Raise TypeError, file_with (Json None alice))
      \/ App.EmployeeManagementSystem.search_employee (app_sys employees_json) (VStr "E1")
           (file_with (Json None alice)) = (Ok None, file_with (Json None alice))).
Proof.
  apply (non_list_file_never_served employees_json (file_with (Json None alice)) alice);
    [reflexivity|discriminate].
Defined.

(** ** Which field the POST route names *)

Lemma find_first {A : Type} (f : A -> bool) pre x post :
  forallb (fun a => negb (f a)) pre = true -> f x = true ->
  find f (pre ++ x :: post) = Some x.
Proof.
  induction pre as [|a pre IH]; cbn; intros Hpre Hx.
  - now rewrite Hx.
  - apply andb_prop in Hpre as [Ha Hpre]. apply negb_true_iff in Ha.
    rewrite Ha. now apply IH.
Qed.

(** X11.  The fields are checked in the order id, name, department,
    salary, and the 400 answer names the first one that is missing or
    falsy, whatever the later ones are. *)
Theorem post_names_first_missing_field :
  forall (b : list (string * value)) (d : disk) pre field post,
    App.required_fields = pre ++ field :: post ->
    forallb (field_ok b) pre = true ->
    field_ok b field = false ->
    App.add_employee (VDict b) d
    = (Ok (VDict [("error", VStr ("Missing required field: " ++ field))]%string, 400%Z), d).
Proof.
  intros b d pre field post Hfields Hpre Hfield.
  rewrite route_add_eq, Hfields.
  rewrite (find_first (fun f => negb (field_ok b f)) pre field post).
  - reflexivity.
  - clear -Hpre. induction pre as [|a pre IH]; [reflexivity|].
    cbn in *. apply andb_prop in Hpre as [Ha Hpre]. rewrite Ha. now apply IH.
  - now rewrite Hfield.
Qed.

Lemma post_names_first_missing_field_witness :
  App.add_employee (VDict [("id", VStr "E5"); ("salary", VInt 0)]%string) no_file
  = (Ok (VDict [("error", VStr "Missing required field: name")]%string, 400%Z), no_file).
Proof.
  apply (post_names_first_missing_field
           [("id", VStr "E5"); ("salary", VInt 0)]%string no_file
           ["id"]%string "name"%string ["department"; "salary"]%string);
    reflexivity.
Defined.

(** ** The two store classes, side by side *)

(** X12.  The store classes of the two files behave alike on every disk:
    add leaves the same disk, raises the same exception, and the flag the
    interactive class returns is the flag of the pair the library class
    returns; search and listing return the same; initialisation leaves
    the same disk. *)
Theorem store_classes_agree :
  forall path (r x : value) (d : disk),
    snd (Cli.EmployeeManagementSystem.add_employee (cli_sys path) r d)
    = snd (App.EmployeeManagementSystem.add_employee (app_sys path) r d)
    /\ (forall e,
          fst (Cli.EmployeeManagementSystem.add_employee (cli_sys path) r d) = Raise e
          <-> fst (App.EmployeeManagementSystem.add_employee (app_sys path) r d) = Raise e)
    /\ (forall flag,
          fst (Cli.EmployeeManagementSystem.add_employee (cli_sys path) r d)
          = Ok (RBool flag)
          <-> exists message,
                fst (App.EmployeeManagementSystem.add_employee (app_sys path) r d)
                = Ok (RTuple flag message))
    /\ Cli.EmployeeManagementSystem.search_employee (cli_sys path) x d
       = App.EmployeeManagementSystem.search_employee (app_sys path) x d
    /\ Cli.EmployeeManagementSystem.view_all_employees (cli_sys path) d
       = App.EmployeeManagementSystem.view_all_employees (app_sys path) d
    /\ snd (Cli.EmployeeManagementSystem.__init__ path d)
       = snd (App.EmployeeManagementSystem.__init__ path d).
Proof.
  intros path r x d.
  assert (Hinit : snd (Cli.EmployeeManagementSystem.__init__ path d)
                  = snd (App.EmployeeManagementSystem.__init__ path d))
    by (rewrite cli_init_eq, init_eq; now destruct (d path) as [| |r0 w c|denied]).
  rewrite cli_search_employee.
  unfold Cli.EmployeeManagementSystem.view_all_employees,
    App.EmployeeManagementSystem.view_all_employees.
  rewrite cli_load_data, app_add_eq, cli_add_eq.
  destruct (load_outcome (d path)) as [all|e0].
  2:{ repeat split; try assumption; cbn [fst]; try congruence;
      try (intros [m H]); discriminate. }
  destruct (py_iter all) as [employees|e0].
  2:{ repeat split; try assumption; cbn [fst]; try congruence;
      try (intros [m H]); discriminate. }
  destruct (App.EmployeeManagementSystem.id_exists employees r) as [[|]|e0].
  - repeat split; try assumption; cbn [fst]; try congruence.
    + intros [= <-]. eauto.
    + intros [m [= <- _]]. reflexivity.
  - destruct (py_append all r) as [all'|e0].
    2:{ repeat split; try assumption; cbn [fst]; try congruence;
        try (intros [m H]); discriminate. }
    destruct (writable d path); repeat split; try assumption; cbn [fst];
      try congruence;
      try (intros [= <-]; eauto);
      try (intros [m [= <- _]]; reflexivity).
  - repeat split; try assumption; cbn [fst]; try congruence;
      try (intros [m H]); discriminate.
Qed.

(** ** Every stored record can be found *)

Lemma unique_ids_before pre e post :
  unique_ids (pre ++ e :: post) = true ->
  forallb (fun e0 => negb (same_id e0 e)) pre = true.
Proof.
  induction pre as [|e0 pre IH]; [reflexivity|].
  cbn [app unique_ids forallb]. intros H.
  apply andb_prop in H as [H1 H2]. rewrite forallb_app in H1.
  apply andb_prop in H1 as [_ H1]. cbn [forallb] in H1.
  apply andb_prop in H1 as [H1 _]. rewrite H1. now apply IH.
Qed.

Lemma none_with_own_id pre e x :
  py_getitem e "id" = Ok x ->
  forallb (fun e0 => negb (same_id e0 e)) pre = true ->
  none_with_id pre x = true.
Proof.
  intros He. unfold none_with_id. induction pre as [|e0 pre IH]; [reflexivity|].
  cbn [forallb]. intros H. apply andb_prop in H as [H1 H2].
  rewrite (IH H2), andb_true_r.
  unfold same_id in H1. unfold id_equals. rewrite He in H1.
  now destruct (py_getitem e0 "id").
Qed.

(** X14.  In a store of records with unique ids every record whose id is
    a string is found by that id: the search returns that very record,
    and GET /api/employees/<id> answers 200 with it when the id is one
    the rule of the route delivers (not empty, no slash). *)
Theorem search_finds_every_record :
  forall path (d : disk) (l : list value) (e : value) (s : string),
    holds d path l ->
    Forall (fun e => has_id e = true) l ->
    unique_ids l = true ->
    In e l ->
    py_getitem e "id" = Ok (VStr s) ->
    App.EmployeeManagementSystem.search_employee (app_sys path) (VStr s) d
    = (Ok (Some e), d)
    /\ Cli.EmployeeManagementSystem.search_employee (cli_sys path) (VStr s) d
       = (Ok (Some e), d)
    /\ (path = App.DATA_FILE -> App.routable s = true ->
        App.get_employee s d = (Ok (e, 200%Z), d)).
Proof.
  intros path d l e s Hl Hrec Huniq Hin He.
  apply holds_iff in Hl.
  apply in_split in Hin as (pre & post & ->).
  assert (Hpre : Forall (fun e => has_id e = true) pre)
    by (apply Forall_app in Hrec; tauto).
  assert (Hnone : none_with_id pre (VStr s) = true)
    by (apply (none_with_own_id pre e _ He), (unique_ids_before pre e post Huniq)).
  assert (Hid : id_equals e (VStr s) = true)
    by (unfold id_equals; rewrite He; now apply py_eq_str).
  assert (Hfirst := first_with_id_first pre e post (VStr s) Hpre Hnone Hid).
  rewrite cli_search_employee, search_eq, Hl. cbn [bind py_iter]. rewrite Hfirst.
  repeat split.
  intros -> _. rewrite route_get_eq, search_eq, Hl. cbn [bind py_iter fst].
  rewrite Hfirst. now rewrite (has_id_truthy e (id_equals_has_id e _ Hid)).
Qed.

Lemma search_finds_every_record_witness :
  App.EmployeeManagementSystem.search_employee (app_sys employees_json) (VStr "E2")
    (file_with (Json None (VList [alice; bob])))
  = (Ok (Some bob), file_with (Json None (VList [alice; bob])))
  /\ App.get_employee "E2" (file_with (Json None (VList [alice; bob])))
     = (Ok (bob, 200%Z), file_with (Json None (VList [alice; bob]))).
Proof.
  destruct (search_finds_every_record employees_json
              (file_with (Json None (VList [alice; bob]))) [alice; bob] bob "E2")
    as (H & _ & Hget);
    [reflexivity|repeat constructor|reflexivity|right; now left|reflexivity|].
  split; [exact H|]. now apply Hget.
Defined.
